(** * gst: the git search tool (main.go), embedded and verified

    The program shells out to [git] for three lookups (commit-history
    search, file-content search, last-commit details), parses the
    delimiter-separated output and prints a report.  The embedding keeps
    the shape of the Go code:

    - Go strings are byte strings: [string] of 8-bit [ascii];
    - [map[string]string] records are [gmap string string], a missing key
      reading as the empty string;
    - a Go [(value, error)] pair is a pair with an [option error];
    - the external process, standard output and the logger are effects of
      a small monad [M]: a backend world is threaded through, the calls
      and the printed text are collected in an event trace, and a run
      either returns or panics (slice bounds out of range). *)

From Stdlib Require Import ZArith Ascii String DecimalString.
From stdpp Require Import gmap strings list.

(** ** The pieces of Go's standard library the program uses *)

Module Go.

(** Characters that cannot be typed inside a literal. *)
Definition nl : string := String "010"%char "".
Definition dquote : string := String "034"%char "".

Definition len (s : string) : nat := String.length s.

(** [s[:n]]: the first [n] bytes, or a run-time panic ([None]) when
    [n] exceeds [len s]. *)
Definition sliceTo (s : string) (n : nat) : option string :=
  if (n <=? len s)%nat then Some (String.substring 0 n s) else None.

(** [strings.Split(s, sep)] for a one-byte separator, the only kind
    the program passes (the pipe and the newline).  The result always
    has at least one field. *)
Fixpoint Split (s : string) (sep : ascii) : list string :=
  match s with
  | EmptyString => [EmptyString]
  | String c s' =>
      if Ascii.eqb c sep then EmptyString :: Split s' sep
      else match Split s' sep with
           | f :: fs => String c f :: fs
           | [] => [String c EmptyString]
           end
  end.

(** [unicode.IsSpace] on the UTF-8 encoding.  Go decodes runes
    strictly (an overlong or broken sequence is U+FFFD, not a space),
    so a white-space rune is exactly one of these byte sequences:
    the six ASCII ones, U+0085 and U+00A0 in two bytes, and U+1680,
    U+2000..U+200A, U+2028, U+2029, U+202F, U+205F, U+3000 in three. *)
Definition isSpace2 (a b : ascii) : bool :=
  (nat_of_ascii a =? 194)%nat
  && ((nat_of_ascii b =? 133)%nat || (nat_of_ascii b =? 160)%nat).

Definition isSpace3 (a b c : ascii) : bool :=
  let x := nat_of_ascii a in
  let y := nat_of_ascii b in
  let z := nat_of_ascii c in
  ((x =? 225) && (y =? 154) && (z =? 128))%nat
  || ((x =? 226) && (y =? 128)
      && (((128 <=? z) && (z <=? 138)) || (z =? 168) || (z =? 169)
          || (z =? 175)))%nat
  || ((x =? 226) && (y =? 129) && (z =? 159))%nat
  || ((x =? 227) && (y =? 128) && (z =? 128))%nat.

(** [strings.TrimLeftFunc(s, unicode.IsSpace)]: drop white-space runes
    from the front. *)
Fixpoint trimLeft (s : string) : string :=
  match s with
  | String a s1 =>
      if Ascii.is_space a then trimLeft s1
      else match s1 with
           | String b s2 =>
               if isSpace2 a b then trimLeft s2
               else match s2 with
                    | String c s3 =>
                        if isSpace3 a b c then trimLeft s3 else s
                    | EmptyString => s
                    end
           | EmptyString => s
           end
  | EmptyString => EmptyString
  end.

(** The same from the back, on the reversed string: the last byte is
    seen first, so the sequences are matched in reverse. *)
Fixpoint trimLeftRev (r : string) : string :=
  match r with
  | String a r1 =>
      if Ascii.is_space a then trimLeftRev r1
      else match r1 with
           | String b r2 =>
               if isSpace2 b a then trimLeftRev r2
               else match r2 with
                    | String c r3 =>
                        if isSpace3 c b a then trimLeftRev r3 else r
                    | EmptyString => r
                    end
           | EmptyString => r
           end
  | EmptyString => EmptyString
  end.

Definition trimRight (s : string) : string :=
  String.rev (trimLeftRev (String.rev s)).

(** [strings.TrimSpace]: leading and trailing white space removed.
    Its ASCII fast path and its Unicode fallback agree with trimming
    white-space runes on the left, then on the right. *)
Definition TrimSpace (s : string) : string := trimRight (trimLeft s).

(** [%d] of [fmt]: decimal, with a minus sign for negatives. *)
Definition itoa (z : Z) : string := NilZero.string_of_int (Z.to_int z).

(** [l[:n]] on a slice.  A negative bound is a run-time panic; so is
    a bound beyond the capacity, which the program never asks for: its
    one use is guarded by [len(l) > n]. *)
Definition sliceListTo {A} (l : list A) (n : Z) : option (list A) :=
  if ((n <? 0) || (Z.of_nat (length l) <? n))%Z then None
  else Some (take (Z.to_nat n) l).

(** [strings.IndexByte(s, c) >= 0]. *)
Fixpoint hasByte (c : ascii) (s : string) : bool :=
  match s with
  | EmptyString => false
  | String a s' => Ascii.eqb a c || hasByte c s'
  end.

(** [strings.Join(fields, sep)] for a one-byte separator. *)
Fixpoint Join (fields : list string) (sep : ascii) : string :=
  match fields with
  | [] => EmptyString
  | [a] => a
  | a :: fields' => a +:+ String sep (Join fields' sep)
  end.

End Go.

(** ** Errors, events and the effect monad *)

(** A Go [error] value.  [*exec.ExitError] is told apart from every other
    error because [searchInFiles] inspects its exit code; [text] is what
    [Error()] returns. *)
Inductive error : Type :=
| ExitError (code : Z) (text : string)
| OtherError (text : string).

Definition Error (e : error) : string :=
  match e with
  | ExitError _ text => text
  | OtherError text => text
  end.

(** [fmt.Errorf(prefix + "%v", err)]. *)
Definition Errorf (prefix : string) (e : error) : error :=
  OtherError (prefix +:+ Error e).

(** What a run does to the outside: a [git] process started in a
    directory with arguments, text written to standard output, a message
    handed to the logger (which adds its own time stamp). *)
Inductive event : Type :=
| Exec (dir : string) (args : list string)
| Stdout (text : string)
| Log (text : string).

(** The external tool: [cmd.Output()] of [git args...] run in [dir]
    gives the captured output and an error, and may change the world. *)
Class Backend (W : Type) : Type :=
  git_output : string → list string → W → (string * option error) * W.

Inductive outcome (A : Type) : Type :=
| Returned (a : A)
| Panicked.
Arguments Returned {A} a.
Arguments Panicked {A}.

Definition M (W A : Type) : Type := W → outcome A * W * list event.

Definition ret {W A} (a : A) : M W A := λ w, (Returned a, w, []).

Definition bind {W A B} (m : M W A) (k : A → M W B) : M W B :=
  λ w, match m w with
       | (Returned a, w1, e1) =>
           match k a w1 with (r, w2, e2) => (r, w2, e1 ++ e2) end
       | (Panicked, w1, e1) => (Panicked, w1, e1)
       end.

Definition emit {W} (e : event) : M W unit := λ w, (Returned tt, w, [e]).

Definition panic {W A} : M W A := λ w, (Panicked, w, []).

(** A partial Go operation: its failure is a panic. *)
Definition orPanic {W A} (o : option A) : M W A :=
  match o with Some a => ret a | None => panic end.

Declare Scope go_scope.
Delimit Scope go_scope with go.
Notation "x <- m ;; k" := (bind m (λ x, k))
  (at level 100, m at next level, right associativity) : go_scope.
Notation "m ;; k" := (bind m (λ _, k))
  (at level 100, right associativity) : go_scope.

(** The events a run emits, and the calls among them. *)
Definition events {W A} (r : outcome A * W * list event) : list event := r.2.
Definition result {W A} (r : outcome A * W * list event) : outcome A := r.1.1.
Definition world {W A} (r : outcome A * W * list event) : W := r.1.2.

Definition execs (evs : list event) : list (list string) :=
  omap (λ e, match e with Exec _ args => Some args | _ => None end) evs.

(** ** The program *)

Record GitSearchTool : Type := NewGitSearchTool { repoPath : string }.

Section Program.
Context {W : Type} `{!Backend W}.
Local Open Scope go_scope.

Local Abbreviation M := (M W).

(** [fmt.Print], [fmt.Println], [fmt.Printf] with the text already
    formatted, and [log.Printf]. *)
Definition Print (s : string) : M unit := emit (Stdout s).
Definition Println (s : string) : M unit := emit (Stdout (s +:+ Go.nl)).
Definition logPrintf (s : string) : M unit := emit (Log s).

(** [exec.Command("git", args...)] with [cmd.Dir = dir], then
    [cmd.Output()]. *)
Definition Output (dir : string) (args : list string)
  : M (string * option error) :=
  λ w, match git_output dir args w with
       | (r, w') => (Returned r, w', [Exec dir args])
       end.

(** [for i, x := range l { body }]. *)
Fixpoint forRangeFrom {A} (i : nat) (l : list A) (body : nat → A → M unit)
  : M unit :=
  match l with
  | [] => ret tt
  | x :: l' => body i x ;; forRangeFrom (S i) l' body
  end.
Definition forRange {A} (l : list A) (body : nat → A → M unit) : M unit :=
  forRangeFrom 0 l body.

Definition lastCommitMessageArgs : list string :=
  ["log"; "-1"; "--pretty=format:%s"].

Definition getLastCommitMessage (g : GitSearchTool) : M (string * option error) :=
  r <- Output (repoPath g) lastCommitMessageArgs ;;
  let '(output, err) := r in
  match err with
  | Some e => ret ("", Some (Errorf "failed to get commit message: " e))
  | None => ret (Go.TrimSpace output, None)
  end.

Definition lastCommitDetailsArgs : list string :=
  ["log"; "-1"; "--pretty=format:%H|%an|%ae|%ad|%s|%b"; "--date=short"].

(** The record built from the split line of the detail fetch
    (main.go 61-72); the indices are in range under the length check
    that precedes it. *)
Definition detailsOfParts (parts : list string) : gmap string string :=
  let details : gmap string string :=
    <["hash" := parts !!! 0%nat]>
    (<["author" := parts !!! 1%nat]>
    (<["email" := parts !!! 2%nat]>
    (<["date" := parts !!! 3%nat]>
    (<["subject" := parts !!! 4%nat]>
    (<["body" := ""]> ∅))))) in
  if (5 <? length parts)%nat
  then <["body" := parts !!! 5%nat]> details
  else details.

Definition getLastCommitDetails (g : GitSearchTool)
  : M (gmap string string * option error) :=
  r <- Output (repoPath g) lastCommitDetailsArgs ;;
  let '(output, err) := r in
  match err with
  | Some e => ret (∅, Some (Errorf "failed to get commit details: " e))
  | None =>
      let parts := Go.Split (Go.TrimSpace output) "|" in
      if (length parts <? 5)%nat
      then ret (∅, Some (OtherError "unexpected git log output format"))
      else ret (detailsOfParts parts, None)
  end.

Definition commitHistoryArgs (query : string) (maxResults : Z) : list string :=
  ["log"; "--grep=" +:+ query; "-i"; "-" +:+ Go.itoa maxResults;
   "--pretty=format:%H|%an|%ad|%s"; "--date=short"].

(** The record of one history line (main.go 99-104). *)
Definition commitOfParts (parts : list string) : gmap string string :=
  <["hash" := parts !!! 0%nat]>
  (<["author" := parts !!! 1%nat]>
  (<["date" := parts !!! 2%nat]>
  (<["subject" := parts !!! 3%nat]> ∅))).

(** The body of the loop over the output lines (main.go 92-107). *)
Definition appendCommit (results : list (gmap string string)) (line : string)
  : list (gmap string string) :=
  if String.eqb line "" then results
  else
    let parts := Go.Split line "|" in
    if (4 <=? length parts)%nat
    then results ++ [commitOfParts parts]
    else results.

(** The records parsed from the raw output (main.go 89-107). *)
Definition commitsOfOutput (output : string) : list (gmap string string) :=
  fold_left appendCommit (Go.Split (Go.TrimSpace output) "010") [].

Definition searchInCommitHistory (g : GitSearchTool) (query : string)
    (maxResults : Z) : M (list (gmap string string) * option error) :=
  r <- Output (repoPath g) (commitHistoryArgs query maxResults) ;;
  let '(output, err) := r in
  match err with
  | Some e => ret ([], Some (Errorf "failed to search commit history: " e))
  | None =>
      ret (commitsOfOutput output, None)
  end.

Definition filesArgs (query : string) : list string :=
  ["grep"; "-n"; "-i"; "--"; query].

Definition searchInFiles (g : GitSearchTool) (query : string)
    (maxResults : Z) : M (list string * option error) :=
  r <- Output (repoPath g) (filesArgs query) ;;
  let '(output, err) := r in
  match err with
  | Some (ExitError 1 _) => ret ([], None)
  | Some e => ret ([], Some (Errorf "failed to search in files: " e))
  | None =>
      let lines := Go.Split (Go.TrimSpace output) "010" in
      if (maxResults <? Z.of_nat (length lines))%Z
      then lines' <- orPanic (Go.sliceListTo lines maxResults) ;;
           ret (lines', None)
      else ret (lines, None)
  end.

(** [%d. [%s] %s - %s (%s)\n] with [i+1], the short hash, and the
    subject, author and date of the commit. *)
Definition commitLine (i : nat) (short : string) (commit : gmap string string)
  : string :=
  Go.itoa (Z.of_nat i + 1) +:+ ". [" +:+ short +:+ "] "
  +:+ commit !!! "subject" +:+ " - " +:+ commit !!! "author"
  +:+ " (" +:+ commit !!! "date" +:+ ")" +:+ Go.nl.

(** [%d. %s\n] with [i+1] and the match. *)
Definition matchLine (i : nat) (m : string) : string :=
  Go.itoa (Z.of_nat i + 1) +:+ ". " +:+ m +:+ Go.nl.

Definition displayLastCommit (g : GitSearchTool) : M unit :=
  Println "=== Last Commit Information ===" ;;
  r <- getLastCommitDetails g ;;
  let '(details, err) := r in
  match err with
  | Some e => logPrintf ("Error getting commit details: " +:+ Error e)
  | None =>
      short <- orPanic (Go.sliceTo (details !!! "hash") 8) ;;
      Print ("Hash:    " +:+ short +:+ Go.nl) ;;
      Print ("Author:  " +:+ details !!! "author"
             +:+ " <" +:+ details !!! "email" +:+ ">" +:+ Go.nl) ;;
      Print ("Date:    " +:+ details !!! "date" +:+ Go.nl) ;;
      Print ("Subject: " +:+ details !!! "subject" +:+ Go.nl) ;;
      (if String.eqb (details !!! "body") "" then ret tt
       else Print ("Body:    " +:+ details !!! "body" +:+ Go.nl)) ;;
      Println ""
  end.

(** Body of the first commit loop of [performSearch] (main.go 191-197):
    the short hash is sliced for the comparison and, on a match, again
    for the line. *)
Definition renderPinnedCommit (hash : string) (i : nat)
    (commit : gmap string string) : M unit :=
  short <- orPanic (Go.sliceTo (commit !!! "hash") 8) ;;
  if String.eqb short hash
  then short' <- orPanic (Go.sliceTo (commit !!! "hash") 8) ;;
       Print (commitLine i short' commit)
  else ret tt.

(** Body of the second commit loop (main.go 208-212). *)
Definition renderCommit (i : nat) (commit : gmap string string) : M unit :=
  short <- orPanic (Go.sliceTo (commit !!! "hash") 8) ;;
  Print (commitLine i short commit).

Definition commitsHeader : string := Go.nl +:+ "--- Commit Messages ---".
Definition filesHeader : string := Go.nl +:+ "--- File Contents ---".

(** The three stages of [performSearch], in the order of the source:
    main.go 182-198, 200-213 and 215-229. *)
Definition stageLastCommit (g : GitSearchTool) (query : string) : M unit :=
  let hash := "64fc5dd7" in
  Println commitsHeader ;;
  r <- searchInCommitHistory g query 1 ;;
  let '(commits, err) := r in
  match err with
  | Some e => logPrintf ("Error searching commits: " +:+ Error e)
  | None =>
      if (length commits =? 0)%nat
      then Println "No matches found in commit messages."
      else forRange commits (renderPinnedCommit hash)
  end.

Definition stageCommitMessages (g : GitSearchTool) (query : string) : M unit :=
  Println commitsHeader ;;
  r <- searchInCommitHistory g query 10 ;;
  let '(commits, err) := r in
  match err with
  | Some e => logPrintf ("Error searching commits: " +:+ Error e)
  | None =>
      if (length commits =? 0)%nat
      then Println "No matches found in commit messages."
      else forRange commits renderCommit
  end.

Definition truncationNotice : string := "... (showing first 20 matches)".

Definition stageFiles (g : GitSearchTool) (query : string) : M unit :=
  Println filesHeader ;;
  r <- searchInFiles g query 20 ;;
  let '(fileMatches, err) := r in
  match err with
  | Some e => logPrintf ("Error searching files: " +:+ Error e)
  | None =>
      if (length fileMatches =? 0)%nat
      then Println "No matches found in tracked files."
      else forRange fileMatches (λ i m, Print (matchLine i m)) ;;
           if (length fileMatches =? 20)%nat
           then Println truncationNotice
           else ret tt
  end.

(** [\n=== Search Results for: "%s" ===\n] with the query. *)
Definition searchBanner (query : string) : string :=
  Go.nl +:+ "=== Search Results for: " +:+ Go.dquote +:+ query
  +:+ Go.dquote +:+ " ===" +:+ Go.nl.

Definition performSearch (g : GitSearchTool) (query : string) : M unit :=
  Print (searchBanner query) ;;
  stageLastCommit g query ;;
  stageCommitMessages g query ;;
  stageFiles g query ;;
  Println "".

Definition prompt : string := "Enter search query (or 'quit' to exit): ".

Definition isExitToken (query : string) : bool :=
  String.eqb query "quit" || String.eqb query "exit" || String.eqb query "q".

(** The session loop.  [stdin] holds the lines the scanner will yield;
    when they run out [scanner.Scan()] is false: at the end of the
    input, and also at a read error or a line too long for the scanner
    (64 KiB), after which it yields nothing more. *)
Fixpoint interactiveSearch (g : GitSearchTool) (stdin : list string) : M unit :=
  Print prompt ;;
  match stdin with
  | [] => ret tt
  | text :: stdin' =>
      let query := Go.TrimSpace text in
      if isExitToken query then ret tt
      else if String.eqb query "" then interactiveSearch g stdin'
      else performSearch g query ;; interactiveSearch g stdin'
  end.

End Program.

(** ** A scripted backend, for running the program

    The world is the list of answers still to give; each call takes the
    next one, and a call past the end fails to start. *)
Definition Script : Type := list (string * option error).

#[export] Instance script_backend : Backend Script :=
  λ _ _ w, match w with
           | r :: w' => (r, w')
           | [] => (("", Some (OtherError "exec: git: not started")), [])
           end.

Definition tool : GitSearchTool := NewGitSearchTool "/repo".

(** Sample backend output. *)
Definition goodLine : string := "0123456789abcdef|dev|2024-05-01|fix typo".
Definition pinnedLine : string := "64fc5dd7c0ffee00|dev|2024-05-01|fix typo".
Definition shortHashLine : string := "abc123|dev|2024-05-01|fix typo".
Definition tenCommits : string := Go.Join (replicate 10 goodLine) "010".
Definition twentyMatches : list string := replicate 20 "main.go:7:// TODO".
Definition detailsLine : string :=
  "0123456789abcdef|dev|dev@example.org|2024-05-01|fix typo|first|second".

Definition mkCommit (hash author date subject : string) : gmap string string :=
  commitOfParts [hash; author; date; subject].

(** ** Vocabulary of the statements *)

(** A record whose hash is long enough for [hash[:8]]. *)
Definition sliceable (commit : gmap string string) : bool :=
  (8 <=? Go.len (commit !!! "hash"))%nat.

(** An answer of the history backend on which the commit loops do not
    panic: an error (nothing is rendered), or output whose records all
    have a sliceable hash. *)
Definition renderable (answer : string * option error) : bool :=
  match answer.2 with
  | Some _ => true
  | None => forallb sliceable (commitsOfOutput answer.1)
  end.


(** A text that does not begin with the separator.  The two formats
    asked of [git log] begin with [%H], the full hash of the commit, so
    every line printed for a commit begins with its hash. *)
Definition hashFirst (text : string) : bool :=
  match text with
  | String c _ => negb (Ascii.eqb c "|")
  | EmptyString => true
  end.

(** A truncation notice on standard output, whatever count it names. *)
Definition isTruncationNotice (e : event) : bool :=
  match e with
  | Stdout text => String.prefix "... (showing first " text
  | _ => false
  end.

Definition isExec (e : event) : bool :=
  match e with Exec _ _ => true | _ => false end.

(** The banner that opens the report of one search. *)
Definition bannerPrefix : string := Go.nl +:+ "=== Search Results for: ".

Definition isBanner (e : event) : bool :=
  match e with
  | Stdout text => String.prefix bannerPrefix text
  | _ => false
  end.

(** The banners among the events: one per search that was started. *)
Definition banners (evs : list event) : list string :=
  omap (λ e, match e with
             | Stdout text => if isBanner e then Some text else None
             | _ => None
             end) evs.

(** Events of pure rendering: no backend call, no truncation notice, no
    banner. *)
Definition plainEvent (e : event) : Prop :=
  isExec e = false ∧ isTruncationNotice e = false ∧ isBanner e = false.

(** The session loop as the specification words it (4.5): from
    [AwaitingInput], an exit token ends the session, an empty input is
    ignored, and any other input is dispatched before the next input is
    awaited.  The list is the queries dispatched, in order. *)
Fixpoint specDispatches (stdin : list string) : list string :=
  match stdin with
  | [] => []
  | text :: stdin' =>
      let query := Go.TrimSpace text in
      if bool_decide (query ∈ ["quit"; "exit"; "q"]) then []
      else if bool_decide (query = "") then specDispatches stdin'
      else query :: specDispatches stdin'
  end.


(** ** The entry point and the operating system

    [main] and [isGitRepo] ask the operating system three things:
    [filepath.Abs], [filepath.Join] and [os.Stat], of which only
    [os.IsNotExist] of the error is looked at. *)

Inductive statResult : Type :=
| StatOk
| StatNotExist
| StatFailed.

Class OS (W : Type) : Type := {
  filepath_Abs : string → W → (string * option error) * W;
  filepath_Join : string → string → string;
  os_Stat : string → W → statResult * W
}.

(** The text [main] prints for [-help], one [fmt.Println] per line. *)
Definition usage : list string :=
  ["Git Commit Search Tool";
   "Usage:";
   "  -path string    Path to git repository (default: current directory)";
   "  -query string   Search query (if empty, enters interactive mode)";
   "  -help           Show this help message";
   Go.nl +:+ "Examples:";
   "  ./git-search                          # Interactive mode in current directory";
   "  ./git-search -query " +:+ Go.dquote +:+ "bug fix" +:+ Go.dquote +:+ "         # Search for 'bug fix'";
   "  ./git-search -path /path/to/repo      # Use different repository"].

Section Main.
Context {W : Type} `{!Backend W, !OS W}.
Local Open Scope go_scope.

Local Abbreviation M := (M W).

Definition Abs (path : string) : M (string * option error) :=
  λ w, match filepath_Abs path w with (r, w') => (Returned r, w', []) end.

Definition Stat (path : string) : M statResult :=
  λ w, match os_Stat path w with (r, w') => (Returned r, w', []) end.

(** [os.IsNotExist(err)] of the error of [os.Stat]. *)
Definition IsNotExist (r : statResult) : bool :=
  match r with StatNotExist => true | _ => false end.

Definition isGitRepo (g : GitSearchTool) : M bool :=
  let gitDir := filepath_Join (repoPath g) ".git" in
  r <- Stat gitDir ;;
  if IsNotExist r then ret false else ret true.

(** [log.Fatalf]: the message goes to the logger and the process exits
    with status 1.  Every use is in [main] itself, so the exit is the
    end of [main] with that status. *)
Definition Fatalf (s : string) : M Z := logPrintf s ;; ret 1%Z.

(** [main], after [flag.Parse]: [path], [query] and [showHelp] are the
    values of the three flags, [stdin] the lines of standard input.  The
    result is the exit status of the process. *)
Definition main (path query : string) (showHelp : bool) (stdin : list string)
  : M Z :=
  if showHelp then forRange usage (λ _ line, Println line) ;; ret 0%Z
  else
    r <- Abs path ;;
    let '(absPath, err) := r in
    match err with
    | Some e => Fatalf ("Error resolving path: " +:+ Error e)
    | None =>
        st <- Stat absPath ;;
        if IsNotExist st
        then Fatalf ("Directory does not exist: " +:+ absPath)
        else
          let g := NewGitSearchTool absPath in
          isRepo <- isGitRepo g ;;
          if negb isRepo
          then Fatalf ("Not a git repository: " +:+ absPath)
          else
            Print ("Git repository: " +:+ absPath +:+ Go.nl) ;;
            displayLastCommit g ;;
            (if negb (String.eqb query "")
             then performSearch g query
             else Println "=== Interactive Search Mode ===" ;;
                  Println "You can search for text in commit messages and file contents." ;;
                  interactiveSearch g stdin) ;;
            Println "Goodbye!" ;;
            ret 0%Z
    end.

End Main.

(** ** A scripted machine, for running [main]

    A file system given by the paths that exist and those that cannot
    be examined, a working directory, and the answers [git] will give. *)
Record Machine : Type := {
  cwd : string;
  present : list string;
  unreadable : list string;
  answers : Script
}.

#[export] Instance machine_backend : Backend Machine :=
  λ dir args m,
    match git_output dir args (answers m) with
    | (r, rest) =>
        (r, {| cwd := cwd m; present := present m;
               unreadable := unreadable m; answers := rest |})
    end.

#[export] Instance machine_os : OS Machine := {|
  filepath_Abs path m :=
    if String.eqb (cwd m) ""
    then (("", Some (OtherError "getwd: no such file or directory")), m)
    else if String.prefix "/" path then ((path, None), m)
    else if String.eqb path "." then ((cwd m, None), m)
    else ((cwd m +:+ "/" +:+ path, None), m);
  filepath_Join dir name := dir +:+ "/" +:+ name;
  os_Stat path m :=
    if bool_decide (path ∈ unreadable m) then (StatFailed, m)
    else if bool_decide (path ∈ present m) then (StatOk, m)
    else (StatNotExist, m)
|}.

(** Sample machines: a repository at [/repo], a directory without
    [.git], and a repository whose [.git] cannot be examined. *)
Definition repoMachine (script : Script) : Machine :=
  {| cwd := "/home/dev"; present := ["/repo"; "/repo/.git"];
     unreadable := []; answers := script |}.

Definition bareMachine : Machine :=
  {| cwd := "/home/dev"; present := ["/repo"]; unreadable := [];
     answers := [] |}.

Definition lockedMachine : Machine :=
  {| cwd := "/home/dev"; present := ["/repo"]; unreadable := ["/repo/.git"];
     answers := [] |}.

Definition sampleRows : list (string * string * string * string) :=
  [("0123456789abcdef", "dev", "2024-05-01", "fix typo");
   ("64fc5dd7c0ffee00", "ops", "2024-05-02", "fix build")].

(** ** More vocabulary *)

(** A [git] process started in [dir], or an event that starts none. *)
Definition inDir (dir : string) (e : event) : Prop :=
  match e with
  | Exec d _ => d = dir
  | _ => True
  end.

(** A field that holds neither the pipe nor the newline. *)
Definition cleanField (a : string) : Prop :=
  Go.hasByte "|" a = false ∧ Go.hasByte "010" a = false.

(** A commit as the history format prints it: hash, author, date and
    subject, joined by pipes. *)
Definition cleanRow (row : string * string * string * string) : Prop :=
  let '(hash, author, date, subject) := row in
  Forall cleanField [hash; author; date; subject].

Definition lineOfRow (row : string * string * string * string) : string :=
  let '(hash, author, date, subject) := row in
  Go.Join [hash; author; date; subject] "|".

Definition commitOfRow (row : string * string * string * string)
  : gmap string string :=
  let '(hash, author, date, subject) := row in
  mkCommit hash author date subject.

(** The string does not begin with an ASCII white-space byte. *)
Definition startsClean (s : string) : Prop :=
  match s with
  | String a _ => Ascii.is_space a = false
  | EmptyString => True
  end.

(** No ASCII white space at either end. *)
Definition asciiTrimmed (s : string) : bool :=
  match s, String.rev s with
  | String a _, String b _ => negb (Ascii.is_space a) && negb (Ascii.is_space b)
  | _, _ => true
  end.

(** ** The model at work on small inputs *)

Example Split_pipe : Go.Split "a|b||c" "|" = ["a"; "b"; ""; "c"].
Proof. reflexivity. Qed.

Example Split_empty : Go.Split "" "|" = [""].
Proof. reflexivity. Qed.

Example TrimSpace_ascii :
  Go.TrimSpace (" " +:+ Go.nl +:+ "q  x " +:+ Go.nl) = "q  x".
Proof. reflexivity. Qed.

Example TrimSpace_nbsp :
  Go.TrimSpace (String (ascii_of_nat 194) (String (ascii_of_nat 160) "quit"))
  = "quit".
Proof. reflexivity. Qed.

Example itoa_samples : (Go.itoa 20, Go.itoa 0, Go.itoa (-3)) = ("20", "0", "-3").
Proof. reflexivity. Qed.

Example sliceTo_short : Go.sliceTo "abc" 8 = None.
Proof. reflexivity. Qed.

Example commitHistoryArgs_limit_1 :
  commitHistoryArgs "fix" 1
  = ["log"; "--grep=fix"; "-i"; "-1"; "--pretty=format:%H|%an|%ad|%s";
     "--date=short"].
Proof. reflexivity. Qed.

Example history_line_rendered :
  events (stageCommitMessages tool "fix"
            ([("abc1234567|dev|2024-05-01|fix bug", None)] : Script))
  = [Stdout (commitsHeader +:+ Go.nl);
     Exec "/repo" (commitHistoryArgs "fix" 10);
     Stdout ("1. [abc12345] fix bug - dev (2024-05-01)" +:+ Go.nl)].
Proof. reflexivity. Qed.

Example no_match_in_files :
  events (stageFiles tool "TODO"
            ([("", Some (ExitError 1 "exit status 1"))] : Script))
  = [Stdout (filesHeader +:+ Go.nl);
     Exec "/repo" ["grep"; "-n"; "-i"; "--"; "TODO"];
     Stdout ("No matches found in tracked files." +:+ Go.nl)].
Proof. reflexivity. Qed.

Example session_dispatches :
  specDispatches [" "; " fix "; "Q"; "q"; "later"] = ["fix"; "Q"]
  ∧ banners (events (interactiveSearch tool [" "; " fix "; "Q"; "q"; "later"]
                       ([] : Script)))
    = [searchBanner "fix"; searchBanner "Q"].
Proof. split; reflexivity. Qed.

(** ** Facts about the library functions *)

Section SplitFacts.
Variable sep : ascii.

Lemma Split_nonempty (s : string) : Go.Split s sep ≠ [].
Proof.
  destruct s as [|c s]; simpl; [done|].
  destruct (Ascii.eqb c sep); [done|].
  destruct (Go.Split s sep); done.
Qed.

Lemma Split_length_pos (s : string) : 1 ≤ length (Go.Split s sep).
Proof.
  pose proof (Split_nonempty s) as Hne.
  destruct (Go.Split s sep); simpl; [done | lia].
Qed.

Lemma Split_field (a rest : string) :
  Go.hasByte sep a = false →
  Go.Split (a +:+ String sep rest) sep = a :: Go.Split rest sep.
Proof.
  induction a as [|c a IH]; simpl; intros Hno.
  - by rewrite Ascii.eqb_refl.
  - apply orb_false_iff in Hno as [Hc Ha].
    rewrite Hc. by rewrite (IH Ha).
Qed.

Lemma Split_last_field (a : string) :
  Go.hasByte sep a = false → Go.Split a sep = [a].
Proof.
  induction a as [|c a IH]; simpl; intros Hno; [done|].
  apply orb_false_iff in Hno as [Hc Ha].
  by rewrite Hc, (IH Ha).
Qed.

(** The first field is empty exactly for the empty string and for a
    string that begins with the separator. *)
Lemma Split_first_empty (s : string) :
  Go.Split s sep !!! 0%nat = "" ↔ s = "" ∨ ∃ s', s = String sep s'.
Proof.
  destruct s as [|c s]; simpl.
  - split; [by left | done].
  - destruct (Ascii.eqb c sep) eqn:Hc.
    + apply Ascii.eqb_eq in Hc as ->. split; [|done]. right. by exists s.
    + assert (c ≠ sep) as Hne by (by apply Ascii.eqb_neq).
      destruct (Go.Split s sep); simpl;
        (split; [done | intros [?|[s' ?]]; [done | congruence]]).
Qed.

(** Splitting what was joined gives the fields back, when only the last
    one may hold the separator. *)
Lemma Split_Join (fields : list string) (last : string) :
  Forall (λ a, Go.hasByte sep a = false) fields →
  Go.Split (Go.Join (fields ++ [last]) sep) sep = fields ++ Go.Split last sep.
Proof.
  induction 1 as [|a fields Ha _ IH]; [done|].
  change (Go.Join ((a :: fields) ++ [last]) sep)
    with (match fields ++ [last] with
          | [] => a
          | _ :: _ => a +:+ String sep (Go.Join (fields ++ [last]) sep)
          end).
  destruct (fields ++ [last]) eqn:Heq.
  - by destruct fields.
  - rewrite (Split_field _ _ Ha). by rewrite IH.
Qed.

End SplitFacts.

Lemma sliceTo_Some (s : string) (n : nat) :
  n ≤ Go.len s → Go.sliceTo s n = Some (String.substring 0 n s).
Proof.
  intros Hn. unfold Go.sliceTo.
  by destruct (Nat.leb_spec n (Go.len s)); [|lia].
Qed.

Lemma sliceTo_None (s : string) (n : nat) :
  Go.len s < n → Go.sliceTo s n = None.
Proof.
  intros Hn. unfold Go.sliceTo.
  by destruct (Nat.leb_spec n (Go.len s)); [lia|].
Qed.

Lemma prefix_first_differs (a b : ascii) (s1 s2 : string) :
  a ≠ b → String.prefix (String a s1) (String b s2) = false.
Proof.
  intros Hab.
  change (String.prefix (String a s1) (String b s2))
    with (if ascii_dec a b then String.prefix s1 s2 else false).
  by destruct (ascii_dec a b).
Qed.

(** [%d] prints a digit or a minus sign first, so a numbered line is
    never mistaken for the truncation notice or for a banner. *)
Lemma itoa_first (z : Z) :
  ∃ c rest, Go.itoa z = String c rest ∧ c ≠ "."%char ∧ c ≠ "010"%char.
Proof.
  unfold Go.itoa.
  destruct (Z.to_int z) as [d|d]; simpl.
  - destruct d; simpl; eexists _, _; (split; [reflexivity | done]).
  - eexists _, _; split; [reflexivity | done].
Qed.

Lemma prefix_append (s t : string) : String.prefix s (s +:+ t) = true.
Proof.
  induction s as [|a s IH]; [by destruct t|].
  change (String.prefix (String a s) (String a s +:+ t))
    with (if ascii_dec a a then String.prefix s (s +:+ t) else false).
  by destruct (ascii_dec a a).
Qed.

(** ** Running the three lookups *)

Section Lookups.
Context {W : Type} `{!Backend W}.
Implicit Types (g : GitSearchTool) (w : W) (query output : string).

Lemma bind_Returned {A B} (m : M W A) (k : A → M W B) w a w1 e1 :
  m w = (Returned a, w1, e1) →
  bind m k w = (result (k a w1), world (k a w1), e1 ++ events (k a w1)).
Proof.
  intros Hm. unfold bind, result, world, events. rewrite Hm.
  by destruct (k a w1) as [[r w2] e2].
Qed.

Lemma bind_Panicked {A B} (m : M W A) (k : A → M W B) w w1 e1 :
  m w = (Panicked, w1, e1) → bind m k w = (Panicked, w1, e1).
Proof. intros Hm. unfold bind. by rewrite Hm. Qed.

Lemma searchInCommitHistory_run g query maxResults w output err w' :
  git_output (repoPath g) (commitHistoryArgs query maxResults) w
    = ((output, err), w') →
  searchInCommitHistory g query maxResults w =
    (Returned match err with
              | Some e => ([], Some (Errorf "failed to search commit history: " e))
              | None => (commitsOfOutput output, None)
              end,
     w', [Exec (repoPath g) (commitHistoryArgs query maxResults)]).
Proof.
  intros Hgit. unfold searchInCommitHistory, bind, Output.
  rewrite Hgit. by destruct err.
Qed.

Lemma getLastCommitDetails_run g w output w' :
  git_output (repoPath g) lastCommitDetailsArgs w = ((output, None), w') →
  getLastCommitDetails g w =
    (Returned (let parts := Go.Split (Go.TrimSpace output) "|" in
               if (length parts <? 5)%nat
               then (∅, Some (OtherError "unexpected git log output format"))
               else (detailsOfParts parts, None)),
     w', [Exec (repoPath g) lastCommitDetailsArgs]).
Proof.
  intros Hgit. unfold getLastCommitDetails, bind, Output.
  rewrite Hgit. simpl.
  by destruct (length (Go.Split (Go.TrimSpace output) "|") <? 5)%nat.
Qed.

Lemma searchInFiles_failed g query maxResults w output e w' :
  git_output (repoPath g) (filesArgs query) w = ((output, Some e), w') →
  searchInFiles g query maxResults w =
    (Returned match e with
              | ExitError 1 _ => ([], None)
              | _ => ([], Some (Errorf "failed to search in files: " e))
              end,
     w', [Exec (repoPath g) (filesArgs query)]).
Proof.
  intros Hgit. unfold searchInFiles, bind, Output.
  rewrite Hgit. by destruct e as [[|[]|]|].
Qed.

Lemma searchInFiles_succeeded g query maxResults w output w' :
  git_output (repoPath g) (filesArgs query) w = ((output, None), w') →
  let lines := Go.Split (Go.TrimSpace output) "010" in
  searchInFiles g query maxResults w =
    (if (maxResults <? 0)%Z then Panicked
     else Returned (take (Z.to_nat maxResults) lines, None),
     w', [Exec (repoPath g) (filesArgs query)]).
Proof.
  intros Hgit lines. unfold searchInFiles, bind, Output.
  rewrite Hgit. simpl. fold lines.
  destruct (Z.ltb_spec maxResults (Z.of_nat (length lines))) as [Hlt|Hge].
  - unfold Go.sliceListTo.
    destruct (Z.ltb_spec maxResults 0) as [Hneg|Hpos]; simpl; [done|].
    by destruct (Z.ltb_spec (Z.of_nat (length lines)) maxResults); [lia|].
  - destruct (Z.ltb_spec maxResults 0) as [Hneg|Hpos]; [lia|].
    rewrite take_ge; [done | lia].
Qed.

(** The history loop keeps, in order, the records of the lines that have
    at least four fields. *)
Lemma fold_appendCommit (lines : list string) (acc : list (gmap string string)) :
  fold_left appendCommit lines acc =
  acc ++ ((λ line, commitOfParts (Go.Split line "|"))
            <$> filter (λ line, 4 ≤ length (Go.Split line "|")) lines).
Proof.
  revert acc. induction lines as [|line lines IH]; intros acc; simpl.
  - by rewrite app_nil_r.
  - rewrite IH. unfold appendCommit.
    rewrite filter_cons.
    destruct (String.eqb_spec line "") as [->|Hline].
    + by rewrite decide_False by (simpl; lia).
    + cbv zeta.
      destruct (Nat.leb_spec 4 (length (Go.Split line "|"))) as [H4|H4].
      * rewrite decide_True by done. by rewrite fmap_cons, <- app_assoc.
      * by rewrite decide_False by lia.
Qed.

(** C2. The file-content search maps the exit status 1 of the backend to
    an empty result list with no error, whatever the query and the limit;
    every other exit status comes back as an error.  So an empty match
    set, which [git grep] signals by status 1, is never an error. *)
Theorem searchInFiles_exit_status g query maxResults w output code text w' :
  git_output (repoPath g) (filesArgs query) w
    = ((output, Some (ExitError code text)), w') →
  (code = 1%Z →
     result (searchInFiles g query maxResults w) = Returned ([], None)) ∧
  (code ≠ 1%Z →
     result (searchInFiles g query maxResults w)
     = Returned ([], Some (Errorf "failed to search in files: "
                                  (ExitError code text)))).
Proof.
  intros Hgit. rewrite (searchInFiles_failed _ _ _ _ _ _ _ Hgit).
  unfold result; simpl. split.
  - by intros ->.
  - intros Hcode. by destruct code as [|[]|].
Qed.

(** C6. Malformed lines.  The history search skips every line that has
    fewer than four pipe-separated fields and still returns the record
    of every other line, in order; the detail fetch fails as a whole
    when its line has fewer than five fields. *)
Theorem malformed_line_policy g query maxResults w output w' :
  (git_output (repoPath g) (commitHistoryArgs query maxResults) w
     = ((output, None), w') →
   result (searchInCommitHistory g query maxResults w)
   = Returned ((λ line, commitOfParts (Go.Split line "|"))
                 <$> filter (λ line, 4 ≤ length (Go.Split line "|"))
                            (Go.Split (Go.TrimSpace output) "010"),
               None)) ∧
  (git_output (repoPath g) lastCommitDetailsArgs w = ((output, None), w') →
   length (Go.Split (Go.TrimSpace output) "|") < 5 →
   result (getLastCommitDetails g w)
   = Returned (∅, Some (OtherError "unexpected git log output format"))).
Proof.
  split.
  - intros Hgit. rewrite (searchInCommitHistory_run _ _ _ _ _ _ _ Hgit).
    unfold result, commitsOfOutput; simpl. by rewrite fold_appendCommit.
  - intros Hgit Hshort. rewrite (getLastCommitDetails_run _ _ _ _ Hgit).
    unfold result; cbv zeta; simpl fst.
    by destruct (Nat.ltb_spec (length (Go.Split (Go.TrimSpace output) "|")) 5);
      [|lia].
Qed.


Lemma detailsOfParts_hash (parts : list string) :
  detailsOfParts parts !!! "hash" = parts !!! 0%nat.
Proof.
  unfold detailsOfParts. destruct (5 <? length parts)%nat.
  - rewrite lookup_total_insert_ne by done. apply lookup_total_insert_eq.
  - apply lookup_total_insert_eq.
Qed.

Lemma detailsOfParts_body (parts : list string) :
  detailsOfParts parts !!! "body"
  = if (5 <? length parts)%nat then parts !!! 5%nat else "".
Proof.
  unfold detailsOfParts. destruct (5 <? length parts)%nat.
  - apply lookup_total_insert_eq.
  - by repeat (rewrite lookup_total_insert_ne by done);
      rewrite lookup_total_insert_eq.
Qed.

Lemma detailsOfParts_take (parts : list string) :
  6 ≤ length parts → detailsOfParts parts = detailsOfParts (take 6 parts).
Proof.
  intros Hlen. unfold detailsOfParts.
  rewrite length_take, Nat.min_l by done.
  destruct (Nat.ltb_spec 5 (length parts)); [|lia]. simpl.
  do 6 (destruct parts as [|? parts]; [simpl in *; lia|]). reflexivity.
Qed.

Lemma hashFirst_spec (text : string) :
  hashFirst text = true ↔ ∀ rest, text ≠ String "|" rest.
Proof.
  destruct text as [|c text]; [done|]. cbn [hashFirst].
  rewrite negb_true_iff, Ascii.eqb_neq. split.
  - intros Hc rest [= -> _]. done.
  - intros Hne ->. by destruct (Hne text).
Qed.

(** The hash of a record is its first field, which is empty only when
    the text it comes from is empty or begins with the separator. *)
Lemma first_field_empty (text : string) :
  Go.Split text "|" !!! 0%nat = "" → hashFirst text = true → text = "".
Proof.
  intros [->|[rest ->]]%Split_first_empty Hfirst; [done|].
  by destruct (proj1 (hashFirst_spec _) Hfirst rest).
Qed.

(** C8. Every record has a non-empty hash.  The hash of a record is the
    first pipe-separated field of the text it was parsed from: the
    records of the history search are, in order, those of the lines
    kept, each with the first field of its own line, and the record of
    the detail fetch has the first field of the trimmed output.  That
    field is empty exactly when the text begins with the separator; git
    prints no such text for the two formats, which begin with [%H]
    ([hashFirst]), and then no record has an empty hash. *)
Theorem hash_is_first_field g query maxResults w output w' :
  (git_output (repoPath g) (commitHistoryArgs query maxResults) w
     = ((output, None), w') →
   let lines := Go.Split (Go.TrimSpace output) "010" in
   ∃ records,
     result (searchInCommitHistory g query maxResults w)
     = Returned (records, None) ∧
     Forall2 (λ r line,
                r !!! "hash" = Go.Split line "|" !!! 0%nat ∧
                (r !!! "hash" = "" ↔ ∃ rest, line = String "|" rest))
             records
             (filter (λ line, 4 ≤ length (Go.Split line "|")) lines) ∧
     (forallb hashFirst lines = true →
      Forall (λ r, r !!! "hash" ≠ "") records)) ∧
  (git_output (repoPath g) lastCommitDetailsArgs w = ((output, None), w') →
   ∀ details,
     result (getLastCommitDetails g w) = Returned (details, None) →
     details !!! "hash" = Go.Split (Go.TrimSpace output) "|" !!! 0%nat ∧
     (details !!! "hash" = "" ↔ ∃ rest, Go.TrimSpace output = String "|" rest) ∧
     (hashFirst (Go.TrimSpace output) = true → details !!! "hash" ≠ "")).
Proof.
  assert (∀ parts : list string,
            commitOfParts parts !!! "hash" = parts !!! 0%nat) as Hhash
    by (intros; apply lookup_total_insert_eq).
  split.
  - intros Hgit lines. eexists. split; [|split].
    + rewrite (searchInCommitHistory_run _ _ _ _ _ _ _ Hgit).
      unfold result, commitsOfOutput; simpl. by rewrite fold_appendCommit.
    + fold lines. apply Forall2_fmap_l, Forall_Forall2_diag, Forall_forall.
      intros line [Hfields _]%list_elem_of_filter. simpl.
      rewrite Hhash. split; [done|]. rewrite Split_first_empty.
      split; [|by right]. intros [->|?]; [|done]. simpl in Hfields. lia.
    + fold lines. intros Hlines. apply Forall_fmap, Forall_forall.
      intros line [Hfields Hline]%list_elem_of_filter. simpl.
      rewrite Hhash. intros Hempty.
      rewrite forallb_forall in Hlines.
      apply first_field_empty in Hempty as ->;
        [simpl in Hfields; lia | by apply Hlines, list_elem_of_In].
  - intros Hgit details. rewrite (getLastCommitDetails_run _ _ _ _ Hgit).
    unfold result; cbv zeta; simpl fst.
    destruct (Nat.ltb_spec (length (Go.Split (Go.TrimSpace output) "|")) 5)
      as [|Hlen]; [done|].
    intros [= <-]. rewrite detailsOfParts_hash. split; [done|]. split.
    + rewrite Split_first_empty.
      split; [|by right]. intros [Hblank|?]; [|done].
      rewrite Hblank in Hlen. simpl in Hlen. lia.
    + intros Hfirst Hempty. apply first_field_empty in Hempty; [|done].
      rewrite Hempty in Hlen. simpl in Hlen. lia.
Qed.

(** C10. The body kept by the detail fetch.  With more than six fields
    the body is the sixth field alone and the record is the one of the
    first six fields, the later ones being dropped without an error; with
    exactly five fields the body is empty.  So a commit body that holds
    the separator is cut at its first occurrence. *)
Theorem details_body_field g w output w' :
  git_output (repoPath g) lastCommitDetailsArgs w = ((output, None), w') →
  let parts := Go.Split (Go.TrimSpace output) "|" in
  (6 < length parts →
   ∃ details, result (getLastCommitDetails g w) = Returned (details, None) ∧
     details !!! "body" = parts !!! 5%nat ∧
     details = detailsOfParts (take 6 parts)) ∧
  (length parts = 5 →
   ∃ details, result (getLastCommitDetails g w) = Returned (details, None) ∧
     details !!! "body" = "") ∧
  (∀ hash author email date subject body rest,
     Forall (λ a, Go.hasByte "|" a = false)
            [hash; author; email; date; subject; body] →
     Go.TrimSpace output
     = Go.Join [hash; author; email; date; subject; body; rest] "|" →
     ∃ details, result (getLastCommitDetails g w) = Returned (details, None) ∧
       details !!! "body" = body).
Proof.
  intros Hgit parts. rewrite (getLastCommitDetails_run _ _ _ _ Hgit).
  unfold result; cbv zeta; simpl fst. fold parts.
  split; [|split].
  - intros Hlen. destruct (Nat.ltb_spec (length parts) 5); [lia|].
    eexists; split; [done|]. split.
    + rewrite detailsOfParts_body.
      by destruct (Nat.ltb_spec 5 (length parts)); [|lia].
    + apply detailsOfParts_take. lia.
  - intros Hlen. destruct (Nat.ltb_spec (length parts) 5); [lia|].
    eexists; split; [done|]. rewrite detailsOfParts_body.
    by destruct (Nat.ltb_spec 5 (length parts)); [lia|].
  - intros hash author email date subject body rest Hfields Hout.
    assert (parts = [hash; author; email; date; subject; body]
                    ++ Go.Split rest "|") as Hparts.
    { unfold parts. rewrite Hout.
      by apply (Split_Join "|" [hash; author; email; date; subject; body]). }
    pose proof (Split_length_pos "|" rest) as Hrest.
    assert (6 < length parts) as Hlen
      by (rewrite Hparts, length_app; simpl; lia).
    destruct (Nat.ltb_spec (length parts) 5); [lia|].
    eexists; split; [done|]. rewrite detailsOfParts_body.
    destruct (Nat.ltb_spec 5 (length parts)); [|lia].
    by rewrite Hparts.
Qed.

End Lookups.

(** ** Rendering and the stages of a search *)

Section Rendering.
Context {W : Type} `{!Backend W}.
Implicit Types (g : GitSearchTool) (w : W) (query : string).
Implicit Types (commit : gmap string string) (evs : list event).

Lemma bind_result {A B} (m : M W A) (k : A → M W B) w :
  result (bind m k w) =
  match result (m w) with
  | Returned a => result (k a (world (m w)))
  | Panicked => Panicked
  end.
Proof.
  unfold bind, result, world. destruct (m w) as [[[a|] w1] e1]; simpl; [|done].
  by destruct (k a w1) as [[? ?] ?].
Qed.

Lemma bind_world {A B} (m : M W A) (k : A → M W B) w :
  world (bind m k w) =
  match result (m w) with
  | Returned a => world (k a (world (m w)))
  | Panicked => world (m w)
  end.
Proof.
  unfold bind, result, world. destruct (m w) as [[[a|] w1] e1]; simpl; [|done].
  by destruct (k a w1) as [[? ?] ?].
Qed.

Lemma bind_events {A B} (m : M W A) (k : A → M W B) w :
  events (bind m k w) =
  events (m w) ++ match result (m w) with
                  | Returned a => events (k a (world (m w)))
                  | Panicked => []
                  end.
Proof.
  unfold bind, result, world, events.
  destruct (m w) as [[[a|] w1] e1]; simpl; [|by rewrite app_nil_r].
  by destruct (k a w1) as [[? ?] ?].
Qed.

Lemma run_projections {A} (r : outcome A) w evs :
  result (r, w, evs) = r ∧ world (r, w, evs) = w ∧ events (r, w, evs) = evs.
Proof. done. Qed.

Lemma execs_app evs1 evs2 : execs (evs1 ++ evs2) = execs evs1 ++ execs evs2.
Proof. apply omap_app. Qed.

Lemma execs_Exec (dir : string) (args : list string) evs :
  execs (Exec dir args :: evs) = args :: execs evs.
Proof. done. Qed.

Lemma execs_Stdout (text : string) evs : execs (Stdout text :: evs) = execs evs.
Proof. done. Qed.

Lemma execs_plain evs : Forall plainEvent evs → execs evs = [].
Proof.
  induction 1 as [|e evs [He _] _ IH]; [done|].
  destruct e; simpl in *; [done | exact IH | exact IH].
Qed.

Lemma notice_plain evs :
  Forall plainEvent evs → existsb isTruncationNotice evs = false.
Proof.
  induction 1 as [|e evs (_ & He & _) _ IH]; [done|].
  simpl. by rewrite He, IH.
Qed.

Lemma banners_plain evs : Forall plainEvent evs → banners evs = [].
Proof.
  induction 1 as [|e evs (_ & _ & He) _ IH]; [done|].
  unfold banners. cbn [omap list_omap]. fold (banners evs).
  rewrite He, IH. by destruct e.
Qed.

Lemma banners_app evs1 evs2 : banners (evs1 ++ evs2) = banners evs1 ++ banners evs2.
Proof. apply omap_app. Qed.

Lemma numbered_plain (z : Z) (rest : string) :
  plainEvent (Stdout (Go.itoa z +:+ rest)).
Proof.
  split; [done|]. unfold isTruncationNotice, isBanner.
  destruct (itoa_first z) as (c & tail & -> & Hdot & Hnl).
  change (String c tail +:+ rest) with (String c (tail +:+ rest)).
  split; apply prefix_first_differs; congruence.
Qed.

Lemma commitLine_plain (i : nat) (short : string) commit :
  plainEvent (Stdout (commitLine i short commit)).
Proof. apply numbered_plain. Qed.

Lemma matchLine_plain (i : nat) (m : string) : plainEvent (Stdout (matchLine i m)).
Proof. apply numbered_plain. Qed.

Lemma renderCommit_run (i : nat) commit w :
  renderCommit i commit w =
  match Go.sliceTo (commit !!! "hash") 8 with
  | Some short => (Returned tt, w, [Stdout (commitLine i short commit)])
  | None => (Panicked, w, [])
  end.
Proof.
  unfold renderCommit, bind, orPanic.
  by destruct (Go.sliceTo (commit !!! "hash") 8).
Qed.

Lemma renderPinnedCommit_run (hash : string) (i : nat) commit w :
  renderPinnedCommit hash i commit w =
  match Go.sliceTo (commit !!! "hash") 8 with
  | Some short =>
      (Returned tt, w,
       if String.eqb short hash
       then [Stdout (commitLine i short commit)] else [])
  | None => (Panicked, w, [])
  end.
Proof.
  unfold renderPinnedCommit, bind, orPanic.
  destruct (Go.sliceTo (commit !!! "hash") 8) as [short|]; simpl; [|done].
  by destruct (String.eqb short hash).
Qed.

Lemma sliceable_sliceTo commit :
  sliceable commit = true →
  Go.sliceTo (commit !!! "hash") 8
  = Some (String.substring 0 8 (commit !!! "hash")).
Proof. intros Hlen. apply sliceTo_Some. by apply Nat.leb_le. Qed.

(** A loop whose body only prints is itself only printing. *)
Lemma forRangeFrom_plain {A} (body : nat → A → M W unit) (l : list A) :
  (∀ i x w, world (body i x w) = w ∧ Forall plainEvent (events (body i x w))) →
  ∀ i w, world (forRangeFrom i l body w) = w
         ∧ Forall plainEvent (events (forRangeFrom i l body w)).
Proof.
  intros Hbody. induction l as [|x l IH]; intros i w; simpl.
  - by split.
  - rewrite bind_world, bind_events.
    destruct (Hbody i x w) as [Hw Hevs].
    destruct (result (body i x w)) as [[]|].
    + rewrite Hw. destruct (IH (S i) w) as [Hw' Hevs'].
      split; [done|]. by apply Forall_app.
    + split; [done|]. by rewrite app_nil_r.
Qed.

(** It returns when its body returns on every element. *)
Lemma forRangeFrom_returns {A} (body : nat → A → M W unit) (l : list A) :
  (∀ i x w, x ∈ l → result (body i x w) = Returned tt ∧ world (body i x w) = w) →
  ∀ i w, result (forRangeFrom i l body w) = Returned tt.
Proof.
  induction l as [|x l IH]; intros Hbody i w; simpl; [done|].
  rewrite bind_result.
  destruct (Hbody i x w) as [-> ->]; [by left|].
  apply IH. intros j y w0 Hy. apply Hbody. by right.
Qed.

Lemma renderCommit_plain (i : nat) commit w :
  world (renderCommit i commit w) = w
  ∧ Forall plainEvent (events (renderCommit i commit w)).
Proof.
  rewrite renderCommit_run.
  destruct (Go.sliceTo (commit !!! "hash") 8); (split; [done|]).
  - repeat constructor; apply commitLine_plain.
  - constructor.
Qed.

Lemma renderPinnedCommit_plain (hash : string) (i : nat) commit w :
  world (renderPinnedCommit hash i commit w) = w
  ∧ Forall plainEvent (events (renderPinnedCommit hash i commit w)).
Proof.
  rewrite renderPinnedCommit_run.
  destruct (Go.sliceTo (commit !!! "hash") 8) as [short|]; (split; [done|]).
  - unfold events; simpl. destruct (String.eqb short hash); [|constructor].
    repeat constructor; apply commitLine_plain.
  - constructor.
Qed.

Lemma renderable_sliceable (output : string) commit :
  renderable (output, None) = true →
  commit ∈ commitsOfOutput output → sliceable commit = true.
Proof.
  unfold renderable; simpl. rewrite forallb_forall.
  intros Hall Hin. apply Hall. by apply list_elem_of_In.
Qed.

(** The loop of the first stage over commits that can all be sliced:
    a line for each commit whose first 8 bytes are [hash], no other. *)
Lemma forRangeFrom_renderPinnedCommit (hash : string) (i : nat)
    (commits : list (gmap string string)) w :
  forallb sliceable commits = true →
  forRangeFrom i commits (renderPinnedCommit hash) w
  = (Returned tt, w,
     mjoin (imap (λ j commit,
                    if String.eqb (String.substring 0 8 (commit !!! "hash")) hash
                    then [Stdout (commitLine (i + j)
                                    (String.substring 0 8 (commit !!! "hash"))
                                    commit)]
                    else [])
                 commits)).
Proof.
  revert i. induction commits as [|commit commits IH]; intros i Hall; [done|].
  cbn [forallb] in Hall. apply andb_true_iff in Hall as [Hc Hall].
  cbn [forRangeFrom].
  rewrite (bind_Returned _ _ w tt w
             (if String.eqb (String.substring 0 8 (commit !!! "hash")) hash
              then [Stdout (commitLine i
                              (String.substring 0 8 (commit !!! "hash")) commit)]
              else []))
    by (by rewrite renderPinnedCommit_run, (sliceable_sliceTo _ Hc)).
  rewrite (IH (S i) Hall).
  rewrite !(proj1 (run_projections _ _ _)),
    (proj1 (proj2 (run_projections _ _ _))),
    (proj2 (proj2 (run_projections _ _ _))).
  rewrite imap_cons, Nat.add_0_r. cbn [mjoin list_join]. do 3 f_equal.
  apply imap_ext. intros j c _. cbn. by rewrite Nat.add_succ_r.
Qed.

(** The first stage: one history call with limit 1, then a report that
    only prints or logs. *)
Lemma stageLastCommit_run g query w answer w' :
  git_output (repoPath g) (commitHistoryArgs query 1) w = (answer, w') →
  ∃ report,
    events (stageLastCommit g query w)
    = Stdout (commitsHeader +:+ Go.nl)
      :: Exec (repoPath g) (commitHistoryArgs query 1) :: report ∧
    world (stageLastCommit g query w) = w' ∧
    Forall plainEvent report ∧
    (renderable answer = true →
     result (stageLastCommit g query w) = Returned tt) ∧
    (∀ e, answer.2 = Some e →
       report = [Log ("Error searching commits: "
                      +:+ Error (Errorf "failed to search commit history: " e))]).
Proof.
  intros Hgit. destruct answer as [output err].
  pose proof (searchInCommitHistory_run _ _ _ _ _ _ _ Hgit) as Hrun.
  unfold stageLastCommit.
  rewrite (bind_Returned _ _ w tt w [Stdout (commitsHeader +:+ Go.nl)])
    by reflexivity.
  rewrite (bind_Returned _ _ _ _ _ _ Hrun).
  unfold events, world, result; cbn [fst snd app].
  destruct err as [e|].
  - eexists. split; [reflexivity|]. repeat split; [by repeat constructor|].
    by intros ? [= <-].
  - destruct (commitsOfOutput output) as [|c cs] eqn:Hcs.
    + eexists. split; [reflexivity|]. repeat split; [by repeat constructor|done].
    + cbn [length Nat.eqb].
      destruct (forRangeFrom_plain (renderPinnedCommit "64fc5dd7") (c :: cs)
                  (renderPinnedCommit_plain "64fc5dd7") 0 w') as [Hw Hevs].
      eexists. split; [reflexivity|].
      split; [exact Hw|]. split; [exact Hevs|]. split; [|done].
      intros Hrend. apply forRangeFrom_returns. intros i x w0 Hx.
      rewrite renderPinnedCommit_run, sliceable_sliceTo; [done|].
      apply (renderable_sliceable output); [done | by rewrite Hcs].
Qed.

(** The second stage: one history call with limit 10, then its report. *)
Lemma stageCommitMessages_run g query w answer w' :
  git_output (repoPath g) (commitHistoryArgs query 10) w = (answer, w') →
  ∃ report,
    events (stageCommitMessages g query w)
    = Stdout (commitsHeader +:+ Go.nl)
      :: Exec (repoPath g) (commitHistoryArgs query 10) :: report ∧
    world (stageCommitMessages g query w) = w' ∧
    Forall plainEvent report ∧
    (renderable answer = true →
     result (stageCommitMessages g query w) = Returned tt) ∧
    (∀ e, answer.2 = Some e →
       report = [Log ("Error searching commits: "
                      +:+ Error (Errorf "failed to search commit history: " e))]).
Proof.
  intros Hgit. destruct answer as [output err].
  pose proof (searchInCommitHistory_run _ _ _ _ _ _ _ Hgit) as Hrun.
  unfold stageCommitMessages.
  rewrite (bind_Returned _ _ w tt w [Stdout (commitsHeader +:+ Go.nl)])
    by reflexivity.
  rewrite (bind_Returned _ _ _ _ _ _ Hrun).
  unfold events, world, result; cbn [fst snd app].
  destruct err as [e|].
  - eexists. split; [reflexivity|]. repeat split; [by repeat constructor|].
    by intros ? [= <-].
  - destruct (commitsOfOutput output) as [|c cs] eqn:Hcs.
    + eexists. split; [reflexivity|]. repeat split; [by repeat constructor|done].
    + cbn [length Nat.eqb].
      destruct (forRangeFrom_plain renderCommit (c :: cs)
                  renderCommit_plain 0 w') as [Hw Hevs].
      eexists. split; [reflexivity|].
      split; [exact Hw|]. split; [exact Hevs|]. split; [|done].
      intros Hrend. apply forRangeFrom_returns. intros i x w0 Hx.
      rewrite renderCommit_run, sliceable_sliceTo; [done|].
      apply (renderable_sliceable output); [done | by rewrite Hcs].
Qed.

Lemma printMatches_plain (i : nat) (m : string) w :
  world (Print (matchLine i m) w) = w
  ∧ Forall plainEvent (events (Print (W:=W) (matchLine i m) w)).
Proof. split; [done|]. repeat constructor; apply matchLine_plain. Qed.

(** The third stage: one file search with limit 20, then its report;
    it always returns.  The report holds a truncation notice exactly
    when the search gave 20 matches. *)
Lemma stageFiles_run g query w answer w' :
  git_output (repoPath g) (filesArgs query) w = (answer, w') →
  ∃ fileMatches err report,
    result (searchInFiles g query 20 w) = Returned (fileMatches, err) ∧
    events (stageFiles g query w)
    = Stdout (filesHeader +:+ Go.nl)
      :: Exec (repoPath g) (filesArgs query) :: report ∧
    world (stageFiles g query w) = w' ∧
    result (stageFiles g query w) = Returned tt ∧
    execs report = [] ∧
    existsb isTruncationNotice report
    = match err with
      | None => (length fileMatches =? 20)%nat
      | Some _ => false
      end ∧
    (err = None → length fileMatches = 20 →
     last report = Some (Stdout (truncationNotice +:+ Go.nl))) ∧
    (∀ e, err = Some e → report = [Log ("Error searching files: " +:+ Error e)]) ∧
    banners report = [].
Proof.
  intros Hgit. destruct answer as [output err].
  assert (∃ fileMatches err',
    searchInFiles g query 20 w
    = (Returned (fileMatches, err'), w', [Exec (repoPath g) (filesArgs query)]))
    as (fileMatches & err' & Hrun).
  { destruct err as [e|].
    - rewrite (searchInFiles_failed _ _ _ _ _ _ _ Hgit).
      destruct e as [[|[p|p|]|p] text|text]; by eexists _, _.
    - rewrite (searchInFiles_succeeded _ _ _ _ _ _ Hgit). by eexists _, _. }
  exists fileMatches, err'. unfold stageFiles.
  rewrite (bind_Returned _ _ w tt w [Stdout (filesHeader +:+ Go.nl)])
    by reflexivity.
  rewrite (bind_Returned _ _ _ _ _ _ Hrun), Hrun.
  rewrite !(proj1 (run_projections _ _ _)),
    !(proj1 (proj2 (run_projections _ _ _))),
    !(proj2 (proj2 (run_projections _ _ _))).
  cbn [app].
  destruct err' as [e|].
  - eexists. split; [done|]. split; [reflexivity|]. repeat split; try done.
    by intros ? [= <-].
  - destruct fileMatches as [|m ms].
    + eexists. split; [done|]. split; [reflexivity|]. by repeat split.
    + cbn [length Nat.eqb].
      set (loop := forRange (m :: ms) (λ i m0, Print (matchLine i m0))).
      destruct (forRangeFrom_plain (λ i m0, Print (matchLine i m0)) (m :: ms)
                  printMatches_plain 0 w') as [Hw Hevs].
      assert (result (loop w') = Returned tt) as Hres.
      { apply forRangeFrom_returns. by intros. }
      fold (forRange (m :: ms) (λ i m0, Print (W:=W) (matchLine i m0))) in Hw, Hevs.
      fold loop in Hw, Hevs.
      eexists. split; [done|]. split; [reflexivity|].
      rewrite bind_world, bind_result, bind_events, Hres, Hw.
      split; [by destruct (length ms =? 19)%nat|].
      split; [by destruct (length ms =? 19)%nat|].
      split.
      { rewrite execs_app, (execs_plain _ Hevs).
        by destruct (length ms =? 19)%nat. }
      split.
      { rewrite existsb_app, (notice_plain _ Hevs).
        by destruct (length ms =? 19)%nat. }
      split; [|split; [done|]].
      * intros _ Hlen.
        assert ((length ms =? 19)%nat = true) as ->
          by (apply Nat.eqb_eq; simpl in Hlen; lia).
        apply last_snoc.
      * rewrite banners_app, (banners_plain _ Hevs).
        by destruct (length ms =? 19)%nat.
Qed.

End Rendering.

(** ** The dispatch and the session loop *)

Section Dispatch.
Context {W : Type} `{!Backend W}.
Implicit Types (g : GitSearchTool) (w : W) (query : string).

Lemma run_eta {A} (r : outcome A * W * list event) :
  r = (result r, world r, events r).
Proof. by destruct r as [[? ?] ?]. Qed.

(** Whatever the backend answers, the first stage makes exactly one
    call: the history search with limit 1. *)
Lemma stageLastCommit_execs g query w :
  execs (events (stageLastCommit g query w)) = [commitHistoryArgs query 1].
Proof.
  destruct (git_output (repoPath g) (commitHistoryArgs query 1) w)
    as [answer w'] eqn:Hgit.
  destruct (stageLastCommit_run _ _ _ _ _ Hgit) as (report & -> & _ & Hplain & _).
  simpl. by rewrite (execs_plain _ Hplain).
Qed.

Lemma stageCommitMessages_execs g query w :
  execs (events (stageCommitMessages g query w)) = [commitHistoryArgs query 10].
Proof.
  destruct (git_output (repoPath g) (commitHistoryArgs query 10) w)
    as [answer w'] eqn:Hgit.
  destruct (stageCommitMessages_run _ _ _ _ _ Hgit)
    as (report & -> & _ & Hplain & _).
  simpl. by rewrite (execs_plain _ Hplain).
Qed.

Lemma stageFiles_execs g query w :
  execs (events (stageFiles g query w)) = [filesArgs query].
Proof.
  destruct (git_output (repoPath g) (filesArgs query) w)
    as [answer w'] eqn:Hgit.
  destruct (stageFiles_run _ _ _ _ _ Hgit)
    as (ms & err & report & _ & -> & _ & _ & Hexecs & _).
  rewrite execs_Stdout, execs_Exec. by rewrite Hexecs.
Qed.

(** The backend calls of a dispatch are the three searches in their
    fixed order, cut short only by a panic. *)
Lemma performSearch_execs_prefix g query w :
  execs (events (performSearch g query w))
    `prefix_of` [commitHistoryArgs query 1; commitHistoryArgs query 10;
                 filesArgs query].
Proof.
  unfold performSearch.
  rewrite (bind_Returned _ _ w tt w [Stdout (searchBanner query)])
    by reflexivity.
  rewrite (proj2 (proj2 (run_projections _ _ _))).
  cbn [app]. rewrite execs_Stdout.
  rewrite bind_events, execs_app, stageLastCommit_execs.
  cbn [app]. apply prefix_cons.
  destruct (result (stageLastCommit g query w)) as [[]|]; [|apply prefix_nil].
  rewrite bind_events, execs_app, stageCommitMessages_execs.
  cbn [app]. apply prefix_cons.
  destruct (result (stageCommitMessages g query _)) as [[]|]; [|apply prefix_nil].
  rewrite bind_events, execs_app, stageFiles_execs.
  cbn [app]. apply prefix_cons.
  destruct (result (stageFiles g query _)) as [[]|]; apply prefix_nil.
Qed.

(** C1, as the code has it.  The backend calls of a dispatch always
    follow the fixed order of the three stages.  When no commit returned
    to the first two stages has a hash too short to slice, the dispatch
    returns, its calls are all three searches, and its output holds the
    report of every stage: an error answered to any stage ([renderable]
    holds of every error) is logged in that stage's report and the later
    stages run all the same. *)
Theorem performSearch_stage_independence g query w :
  execs (events (performSearch g query w))
    `prefix_of` [commitHistoryArgs query 1; commitHistoryArgs query 10;
                 filesArgs query] ∧
  ∀ r1 w1 r2 w2 r3 w3,
  git_output (repoPath g) (commitHistoryArgs query 1) w = (r1, w1) →
  git_output (repoPath g) (commitHistoryArgs query 10) w1 = (r2, w2) →
  git_output (repoPath g) (filesArgs query) w2 = (r3, w3) →
  renderable r1 = true →
  renderable r2 = true →
  result (performSearch g query w) = Returned tt ∧
  execs (events (performSearch g query w))
  = [commitHistoryArgs query 1; commitHistoryArgs query 10; filesArgs query] ∧
  events (performSearch g query w)
  = Stdout (searchBanner query)
    :: events (stageLastCommit g query w)
    ++ events (stageCommitMessages g query w1)
    ++ events (stageFiles g query w2)
    ++ [Stdout Go.nl] ∧
  (∀ e, r1.2 = Some e →
     Log ("Error searching commits: "
          +:+ Error (Errorf "failed to search commit history: " e))
     ∈ events (stageLastCommit g query w)) ∧
  (∀ e, r2.2 = Some e →
     Log ("Error searching commits: "
          +:+ Error (Errorf "failed to search commit history: " e))
     ∈ events (stageCommitMessages g query w1)) ∧
  (∀ e, r3.2 = Some e → (∀ text, e ≠ ExitError 1 text) →
     Log ("Error searching files: "
          +:+ Error (Errorf "failed to search in files: " e))
     ∈ events (stageFiles g query w2)).
Proof.
  split; [apply performSearch_execs_prefix|].
  intros r1 w1 r2 w2 r3 w3 H1 H2 H3 Hr1 Hr2.
  destruct (stageLastCommit_run _ _ _ _ _ H1)
    as (rep1 & Hev1 & Hw1 & Hplain1 & Hret1 & Hlog1).
  destruct (stageCommitMessages_run _ _ _ _ _ H2)
    as (rep2 & Hev2 & Hw2 & Hplain2 & Hret2 & Hlog2).
  destruct (stageFiles_run _ _ _ _ _ H3)
    as (ms & err & rep3 & Hsearch & Hev3 & Hw3 & Hret3 & Hex3 & _ & _ & Hlog3 & _).
  specialize (Hret1 Hr1). specialize (Hret2 Hr2).
  pose proof (run_eta (stageLastCommit g query w)) as Hs1.
  pose proof (run_eta (stageCommitMessages g query w1)) as Hs2.
  pose proof (run_eta (stageFiles g query w2)) as Hs3.
  rewrite Hret1, Hw1 in Hs1. rewrite Hret2, Hw2 in Hs2.
  rewrite Hret3, Hw3 in Hs3.
  assert (performSearch g query w
          = (Returned tt, w3,
             Stdout (searchBanner query)
             :: events (stageLastCommit g query w)
             ++ events (stageCommitMessages g query w1)
             ++ events (stageFiles g query w2) ++ [Stdout Go.nl])) as Hrun.
  { unfold performSearch.
    rewrite (bind_Returned _ _ w tt w [Stdout (searchBanner query)])
      by reflexivity.
    rewrite (bind_Returned _ _ _ _ _ _ Hs1).
    rewrite (bind_Returned _ _ _ _ _ _ Hs2).
    rewrite (bind_Returned _ _ _ _ _ _ Hs3).
    reflexivity. }
  rewrite Hrun.
  rewrite (proj1 (run_projections _ _ _)), (proj2 (proj2 (run_projections _ _ _))).
  split; [done|]. split; [|split; [done|]].
  - rewrite Hev1, Hev2, Hev3.
    repeat (rewrite execs_Stdout || rewrite execs_Exec || rewrite execs_app).
    by rewrite (execs_plain _ Hplain1), (execs_plain _ Hplain2), Hex3.
  - split; [|split].
    + intros e He. rewrite Hev1, (Hlog1 e He). by do 2 right; left.
    + intros e He. rewrite Hev2, (Hlog2 e He). by do 2 right; left.
    + intros e He Hcode. destruct r3 as [output r3err]. simpl in He. subst r3err.
      rewrite (searchInFiles_failed _ _ _ _ _ _ _ H3) in Hsearch.
      rewrite (proj1 (run_projections _ _ _)) in Hsearch.
      assert (err = Some (Errorf "failed to search in files: " e)) as Herr.
      { destruct e as [[|[p|p|]|p] text|text]; try by inversion Hsearch.
        by destruct (Hcode text). }
      rewrite Hev3, (Hlog3 _ Herr). by do 2 right; left.
Qed.

(** C4. The first stage.  Whatever the backend answers, the stage makes
    one backend call and no other: [git log --grep=<query> -i -1
    --pretty=format:%H|%an|%ad|%s --date=short], the history search with
    limit 1.  From an answer of at most one commit, which is what git
    gives under that limit, it prints the no-match message when there
    is none, and otherwise the line of the commit, numbered 1, if and
    only if the first 8 bytes of its hash are the pinned value
    [64fc5dd7].  The stage does not cut the answer down itself: from
    any commits that can be sliced it prints those whose first 8 bytes
    are the pinned value, each under its position in the answer. *)
Theorem pinned_commit_stage g query w :
  let args := ["log"; "--grep=" +:+ query; "-i"; "-1";
               "--pretty=format:%H|%an|%ad|%s"; "--date=short"] in
  let header := Stdout (Go.nl +:+ "--- Commit Messages ---" +:+ Go.nl) in
  let line (i : nat) (commit : gmap string string) :=
    Stdout (Go.itoa (Z.of_nat i + 1) +:+ ". [64fc5dd7] "
            +:+ commit !!! "subject" +:+ " - " +:+ commit !!! "author"
            +:+ " (" +:+ commit !!! "date" +:+ ")" +:+ Go.nl) in
  execs (events (stageLastCommit g query w)) = [args] ∧
  ∀ output w',
    git_output (repoPath g) args w = ((output, None), w') →
    (commitsOfOutput output = [] →
     stageLastCommit g query w
     = (Returned tt, w',
        [header; Exec (repoPath g) args;
         Stdout ("No matches found in commit messages." +:+ Go.nl)])) ∧
    (∀ commit,
       commitsOfOutput output = [commit] →
       events (stageLastCommit g query w)
       = header :: Exec (repoPath g) args
         :: (if decide (Go.sliceTo (commit !!! "hash") 8 = Some "64fc5dd7")
             then [Stdout ("1. [64fc5dd7] " +:+ commit !!! "subject" +:+ " - "
                           +:+ commit !!! "author" +:+ " ("
                           +:+ commit !!! "date" +:+ ")" +:+ Go.nl)]
             else []) ∧
       (Stdout ("1. [64fc5dd7] " +:+ commit !!! "subject" +:+ " - "
                +:+ commit !!! "author" +:+ " (" +:+ commit !!! "date"
                +:+ ")" +:+ Go.nl)
        ∈ events (stageLastCommit g query w)
        ↔ Go.sliceTo (commit !!! "hash") 8 = Some "64fc5dd7")) ∧
    (commitsOfOutput output ≠ [] →
     forallb sliceable (commitsOfOutput output) = true →
     stageLastCommit g query w
     = (Returned tt, w',
        header :: Exec (repoPath g) args
        :: mjoin (imap (λ i commit,
                          if String.eqb (String.substring 0 8 (commit !!! "hash"))
                                        "64fc5dd7"
                          then [line i commit] else [])
                       (commitsOfOutput output)))).
Proof.
  intros args header line.
  split; [exact (stageLastCommit_execs g query w)|].
  intros output w' Hgit.
  change args with (commitHistoryArgs query 1) in *.
  change header with (Stdout (commitsHeader +:+ Go.nl)).
  pose proof (searchInCommitHistory_run _ _ _ _ _ _ _ Hgit) as Hrun.
  assert (stageLastCommit g query w
          = let report :=
              (if (length (commitsOfOutput output) =? 0)%nat
               then Println "No matches found in commit messages."
               else forRange (commitsOfOutput output)
                      (renderPinnedCommit "64fc5dd7")) w' in
            (result report, world report,
             Stdout (commitsHeader +:+ Go.nl)
             :: Exec (repoPath g) (commitHistoryArgs query 1)
             :: events report)) as Hstage.
  { unfold stageLastCommit.
    rewrite (bind_Returned _ _ w tt w [Stdout (commitsHeader +:+ Go.nl)])
      by reflexivity.
    by rewrite (bind_Returned _ _ _ _ _ _ Hrun). }
  cbv zeta in Hstage.
  split; [|split].
  - intros Hnone. rewrite Hstage, Hnone. reflexivity.
  - intros commit Hone.
    assert (events (stageLastCommit g query w)
            = Stdout (commitsHeader +:+ Go.nl)
              :: Exec (repoPath g) (commitHistoryArgs query 1)
              :: (if decide (Go.sliceTo (commit !!! "hash") 8 = Some "64fc5dd7")
                  then [Stdout (commitLine 0 "64fc5dd7" commit)] else []))
      as Hevs.
    { rewrite Hstage, Hone.
      rewrite (proj2 (proj2 (run_projections _ _ _))).
      cbn [length Nat.eqb forRange forRangeFrom]. do 2 f_equal.
      rewrite bind_events, renderPinnedCommit_run.
      destruct (Go.sliceTo (commit !!! "hash") 8) as [short|].
      - rewrite (proj1 (run_projections _ _ _)),
          (proj2 (proj2 (run_projections _ _ _))).
        destruct (String.eqb_spec short "64fc5dd7") as [->|Hshort].
        + by rewrite decide_True.
        + rewrite decide_False; [done | congruence].
      - by rewrite decide_False. }
    split; [exact Hevs|].
    change (Stdout (commitLine 0 "64fc5dd7" commit)
            ∈ events (stageLastCommit g query w)
            ↔ Go.sliceTo (commit !!! "hash") 8 = Some "64fc5dd7").
    rewrite Hevs.
    destruct (decide (Go.sliceTo (commit !!! "hash") 8 = Some "64fc5dd7"))
      as [Hyes|Hno].
    + split; [done|]. intros _. by do 2 right; left.
    + split; [|done]. intros Hin.
      apply elem_of_cons in Hin as [Hin|Hin]; [discriminate Hin|].
      apply elem_of_cons in Hin as [Hin|Hin]; [discriminate Hin|].
      by apply elem_of_nil in Hin.
  - intros Hsome Hall. rewrite Hstage.
    destruct (commitsOfOutput output) as [|c cs]; [done|].
    cbn [length Nat.eqb]. unfold forRange.
    rewrite (forRangeFrom_renderPinnedCommit "64fc5dd7" 0 (c :: cs) w' Hall).
    rewrite (proj1 (run_projections _ _ _)),
      (proj1 (proj2 (run_projections _ _ _))),
      (proj2 (proj2 (run_projections _ _ _))).
    do 4 f_equal. apply imap_ext. intros i commit _. cbv beta.
    destruct (String.eqb_spec (String.substring 0 8 (commit !!! "hash"))
                "64fc5dd7") as [->|_]; reflexivity.
Qed.

Lemma header_not_notice (header : string) :
  isTruncationNotice (Stdout ((Go.nl +:+ header) +:+ Go.nl)) = false.
Proof. by apply prefix_first_differs. Qed.

(** C5, as the code has it.  Only the file stage has a truncation
    notice: its output holds one exactly when the search gave 20
    matches, and then it is the last thing printed; the two commit
    stages never print one, whatever the count. *)
Theorem truncation_notice g query w :
  (∀ fileMatches,
     result (searchInFiles g query 20 w) = Returned (fileMatches, None) →
     existsb isTruncationNotice (events (stageFiles g query w))
     = (length fileMatches =? 20)%nat ∧
     (length fileMatches = 20 →
      last (events (stageFiles g query w))
      = Some (Stdout (truncationNotice +:+ Go.nl)))) ∧
  existsb isTruncationNotice (events (stageCommitMessages g query w)) = false ∧
  existsb isTruncationNotice (events (stageLastCommit g query w)) = false.
Proof.
  split; [|split].
  - intros fileMatches Hsearch.
    destruct (git_output (repoPath g) (filesArgs query) w)
      as [answer w'] eqn:Hgit.
    destruct (stageFiles_run _ _ _ _ _ Hgit)
      as (ms & err & report & Hms & -> & _ & _ & _ & Hnotice & Hlast & _).
    rewrite Hsearch in Hms. injection Hms as <- <-.
    split.
    + cbn [existsb]. unfold filesHeader.
      by rewrite header_not_notice, Hnotice.
    + intros Hlen. by rewrite !last_cons, (Hlast eq_refl Hlen).
  - destruct (git_output (repoPath g) (commitHistoryArgs query 10) w)
      as [answer w'] eqn:Hgit.
    destruct (stageCommitMessages_run _ _ _ _ _ Hgit)
      as (report & -> & _ & Hplain & _).
    cbn [existsb]. unfold commitsHeader.
    by rewrite header_not_notice, (notice_plain _ Hplain).
  - destruct (git_output (repoPath g) (commitHistoryArgs query 1) w)
      as [answer w'] eqn:Hgit.
    destruct (stageLastCommit_run _ _ _ _ _ Hgit)
      as (report & -> & _ & Hplain & _).
    cbn [existsb]. unfold commitsHeader.
    by rewrite header_not_notice, (notice_plain _ Hplain).
Qed.

Lemma performSearch_banner_first g query w :
  ∃ rest, events (performSearch g query w) = Stdout (searchBanner query) :: rest.
Proof.
  unfold performSearch.
  rewrite (bind_Returned _ _ w tt w [Stdout (searchBanner query)])
    by reflexivity.
  by eexists.
Qed.

Lemma interactiveSearch_unfold g (stdin : list string) w :
  interactiveSearch g stdin w =
  (Print prompt ;;
   match stdin with
   | [] => ret tt
   | text :: stdin' =>
       let query := Go.TrimSpace text in
       if isExitToken query then ret tt
       else if String.eqb query "" then interactiveSearch g stdin'
       else performSearch g query ;; interactiveSearch g stdin'
   end)%go w.
Proof. by destruct stdin. Qed.

Lemma interactiveSearch_prompt_first g (stdin : list string) w :
  ∃ rest, events (interactiveSearch g stdin w) = Stdout prompt :: rest.
Proof.
  rewrite interactiveSearch_unfold.
  rewrite (bind_Returned _ _ w tt w [Stdout prompt]) by reflexivity.
  by eexists.
Qed.

Lemma banner_is_banner query : isBanner (Stdout (searchBanner query)) = true.
Proof.
  exact (prefix_append bannerPrefix
           (Go.dquote +:+ query +:+ Go.dquote +:+ " ===" +:+ Go.nl)).
Qed.

Lemma stageLastCommit_banners g query w :
  banners (events (stageLastCommit g query w)) = [].
Proof.
  destruct (git_output (repoPath g) (commitHistoryArgs query 1) w)
    as [answer w'] eqn:Hgit.
  destruct (stageLastCommit_run _ _ _ _ _ Hgit) as (report & -> & _ & Hplain & _).
  apply (banners_plain report Hplain).
Qed.

Lemma stageCommitMessages_banners g query w :
  banners (events (stageCommitMessages g query w)) = [].
Proof.
  destruct (git_output (repoPath g) (commitHistoryArgs query 10) w)
    as [answer w'] eqn:Hgit.
  destruct (stageCommitMessages_run _ _ _ _ _ Hgit)
    as (report & -> & _ & Hplain & _).
  apply (banners_plain report Hplain).
Qed.

Lemma stageFiles_banners g query w :
  banners (events (stageFiles g query w)) = [].
Proof.
  destruct (git_output (repoPath g) (filesArgs query) w)
    as [answer w'] eqn:Hgit.
  destruct (stageFiles_run _ _ _ _ _ Hgit)
    as (ms & err & report & _ & -> & _ & _ & _ & _ & _ & _ & Hbanners).
  exact Hbanners.
Qed.

(** A search prints its banner once, whether it returns or panics. *)
Lemma performSearch_banners g query w :
  banners (events (performSearch g query w)) = [searchBanner query].
Proof.
  unfold performSearch.
  rewrite (bind_Returned _ _ w tt w [Stdout (searchBanner query)])
    by reflexivity.
  rewrite (proj2 (proj2 (run_projections _ _ _))), banners_app.
  assert (banners [Stdout (searchBanner query)] = [searchBanner query]) as ->.
  { unfold banners. cbn [omap list_omap]. by rewrite banner_is_banner. }
  cbn [app]. f_equal.
  rewrite bind_events, banners_app, stageLastCommit_banners.
  destruct (result (stageLastCommit g query w)) as [[]|]; [|done].
  rewrite bind_events, banners_app, stageCommitMessages_banners.
  destruct (result (stageCommitMessages g query _)) as [[]|]; [|done].
  rewrite bind_events, banners_app, stageFiles_banners.
  by destruct (result (stageFiles g query _)) as [[]|].
Qed.

Lemma isExitToken_spec query :
  isExitToken query = bool_decide (query ∈ ["quit"; "exit"; "q"]).
Proof.
  destruct (isExitToken query) eqn:Htoken; symmetry.
  - apply bool_decide_eq_true. unfold isExitToken in Htoken.
    rewrite !orb_true_iff, !String.eqb_eq in Htoken.
    rewrite !elem_of_cons, elem_of_nil. tauto.
  - apply bool_decide_eq_false. unfold isExitToken in Htoken.
    rewrite !orb_false_iff, !String.eqb_neq in Htoken.
    rewrite !elem_of_cons, elem_of_nil. tauto.
Qed.

(** The searches a session starts are those of the specification's
    state machine, in order: always a prefix of them, and all of them
    when the session returns. *)
Lemma interactiveSearch_dispatches g (stdin : list string) w :
  banners (events (interactiveSearch g stdin w))
    `prefix_of` (searchBanner <$> specDispatches stdin) ∧
  (result (interactiveSearch g stdin w) = Returned tt →
   banners (events (interactiveSearch g stdin w))
   = searchBanner <$> specDispatches stdin).
Proof.
  revert w. induction stdin as [|text stdin IH]; intros w;
    rewrite interactiveSearch_unfold;
    rewrite (bind_Returned _ _ w tt w [Stdout prompt]) by reflexivity;
    rewrite (proj1 (run_projections _ _ _)),
      (proj2 (proj2 (run_projections _ _ _))), banners_app;
    change (banners [Stdout prompt]) with (@nil string); cbn [app].
  - done.
  - cbv zeta. cbn [specDispatches]. rewrite <- isExitToken_spec.
    destruct (isExitToken (Go.TrimSpace text)); [done|].
    destruct (String.eqb_spec (Go.TrimSpace text) "") as [Hblank|Hquery].
    + rewrite bool_decide_eq_true_2 by done. apply IH.
    + rewrite bool_decide_eq_false_2 by done.
      rewrite bind_events, bind_result, banners_app, performSearch_banners.
      rewrite fmap_cons. cbn [app].
      destruct (result (performSearch g (Go.TrimSpace text) w)) as [[]|].
      * destruct (IH (world (performSearch g (Go.TrimSpace text) w)))
          as [Hprefix Hall].
        split; [by apply prefix_cons|]. intros Hret. by rewrite (Hall Hret).
      * split; [|done]. apply prefix_cons, prefix_nil.
Qed.

(** A session that panics does so inside a search: the searches started
    are those of the state machine up to that one, and none after it. *)
Lemma interactiveSearch_panicked g (stdin : list string) w :
  result (interactiveSearch g stdin w) = Panicked →
  ∃ before query after w0,
    specDispatches stdin = before ++ query :: after ∧
    banners (events (interactiveSearch g stdin w))
    = searchBanner <$> (before ++ [query]) ∧
    result (performSearch g query w0) = Panicked.
Proof.
  revert w. induction stdin as [|text stdin IH]; intros w;
    rewrite interactiveSearch_unfold;
    rewrite (bind_Returned _ _ w tt w [Stdout prompt]) by reflexivity;
    rewrite (proj1 (run_projections _ _ _)),
      (proj2 (proj2 (run_projections _ _ _))), banners_app;
    change (banners [Stdout prompt]) with (@nil string); cbn [app].
  - done.
  - cbv zeta. cbn [specDispatches]. rewrite <- isExitToken_spec.
    destruct (isExitToken (Go.TrimSpace text)); [done|].
    destruct (String.eqb_spec (Go.TrimSpace text) "") as [Hblank|Hquery].
    + rewrite bool_decide_eq_true_2 by done. apply IH.
    + rewrite bool_decide_eq_false_2 by done.
      rewrite bind_events, bind_result, banners_app, performSearch_banners.
      cbn [app].
      destruct (result (performSearch g (Go.TrimSpace text) w))
        as [[]|] eqn:Hsearch.
      * intros Hpanic.
        destruct (IH _ Hpanic) as (before & query & after & w0 & Hspec & Hban & Hq).
        exists (Go.TrimSpace text :: before), query, after, w0.
        by rewrite Hspec, Hban.
      * intros _.
        by exists [], (Go.TrimSpace text), (specDispatches stdin), w.
Qed.

(** C9, as the code has it.  A turn of the session loop prints the
    prompt and takes the next line.  When the scanner yields none, and
    on a line that trims to [quit], [exit] or [q] (string equality, so
    case matters), the session ends there without a search; those are
    the only turns after which nothing but the prompt was printed.  A
    blank line starts no search and the session goes on with the next
    line.  Any other line starts one search, for the trimmed text: when
    that search returns the session goes on with the next line, and
    when it panics the session ends with it and the later lines are not
    read.  So a session that returns has made the searches of the
    specification's state machine, one each and in order, and a session
    that does not has made them up to the search that panicked. *)
Theorem interactiveSearch_transitions g w :
  interactiveSearch g [] w = (Returned tt, w, [Stdout prompt]) ∧
  (∀ text stdin,
     let query := Go.TrimSpace text in
     let search := performSearch g query w in
     (isExitToken query = true →
      interactiveSearch g (text :: stdin) w = (Returned tt, w, [Stdout prompt])) ∧
     (isExitToken query = false → query = "" →
      interactiveSearch g (text :: stdin) w
      = (result (interactiveSearch g stdin w),
         world (interactiveSearch g stdin w),
         Stdout prompt :: events (interactiveSearch g stdin w))) ∧
     (isExitToken query = false → query ≠ "" →
      banners (events search) = [searchBanner query] ∧
      (result search = Returned tt →
       interactiveSearch g (text :: stdin) w
       = (result (interactiveSearch g stdin (world search)),
          world (interactiveSearch g stdin (world search)),
          Stdout prompt
          :: events search ++ events (interactiveSearch g stdin (world search)))) ∧
      (result search = Panicked →
       interactiveSearch g (text :: stdin) w
       = (Panicked, world search, Stdout prompt :: events search))) ∧
     (events (interactiveSearch g (text :: stdin) w) = [Stdout prompt]
      ↔ isExitToken query = true)) ∧
  (∀ query,
     isExitToken query = true ↔ query = "quit" ∨ query = "exit" ∨ query = "q") ∧
  (∀ stdin,
     (result (interactiveSearch g stdin w) = Returned tt →
      banners (events (interactiveSearch g stdin w))
      = searchBanner <$> specDispatches stdin) ∧
     (result (interactiveSearch g stdin w) = Panicked →
      ∃ before query after w0,
        specDispatches stdin = before ++ query :: after ∧
        banners (events (interactiveSearch g stdin w))
        = searchBanner <$> (before ++ [query]) ∧
        result (performSearch g query w0) = Panicked)).
Proof.
  split; [done|]. split; [|split].
  - intros text stdin query search.
    pose (turn := (if isExitToken query then ret tt
                   else if String.eqb query "" then interactiveSearch g stdin
                   else (performSearch g query ;; interactiveSearch g stdin)%go) w).
    assert (interactiveSearch g (text :: stdin) w
            = (result turn, world turn, Stdout prompt :: events turn)) as Hturn.
    { rewrite interactiveSearch_unfold. cbv zeta.
      by rewrite (bind_Returned _ _ w tt w [Stdout prompt]) by reflexivity. }
    assert (isExitToken query = true →
            interactiveSearch g (text :: stdin) w
            = (Returned tt, w, [Stdout prompt])) as Hexit.
    { intros Hq. rewrite Hturn. unfold turn. by rewrite Hq. }
    assert (isExitToken query = false → query = "" →
            interactiveSearch g (text :: stdin) w
            = (result (interactiveSearch g stdin w),
               world (interactiveSearch g stdin w),
               Stdout prompt :: events (interactiveSearch g stdin w))) as Hblank.
    { intros Hq Hempty. rewrite Hturn. unfold turn. by rewrite Hq, Hempty. }
    assert (isExitToken query = false → query ≠ "" →
            turn = (performSearch g query ;; interactiveSearch g stdin)%go w)
      as Hdispatch.
    { intros Hq Hne. unfold turn. rewrite Hq.
      by destruct (String.eqb_spec query ""). }
    split; [done|]. split; [done|]. split.
    { intros Hq Hne. split; [apply performSearch_banners|].
      rewrite Hturn, (Hdispatch Hq Hne).
      rewrite bind_result, bind_world, bind_events. fold search.
      split; intros Hs; rewrite Hs; [done|]. by rewrite app_nil_r. }
    split; [|by intros Hq; rewrite (Hexit Hq)].
    intros Hevs. destruct (isExitToken query) eqn:Hq; [done|]. exfalso.
    destruct (String.eqb_spec query "") as [Hempty|Hne].
    + rewrite (Hblank eq_refl Hempty) in Hevs.
      rewrite (proj2 (proj2 (run_projections _ _ _))) in Hevs.
      destruct (interactiveSearch_prompt_first g stdin w) as [rest Hrest].
      by rewrite Hrest in Hevs.
    + rewrite Hturn, (Hdispatch eq_refl Hne) in Hevs.
      rewrite (proj2 (proj2 (run_projections _ _ _))), bind_events in Hevs.
      destruct (performSearch_banner_first g query w) as [rest Hrest].
      by rewrite Hrest in Hevs.
  - intros query. unfold isExitToken.
    rewrite !orb_true_iff, !String.eqb_eq. tauto.
  - intros stdin. split.
    + apply interactiveSearch_dispatches.
    + apply interactiveSearch_panicked.
Qed.

(** C3, as the code has it.  The three places that show a short hash
    slice the first 8 bytes of the hash: with a hash of at least 8 bytes
    they print that prefix; with a shorter one the slice is out of range
    and the operation panics, nothing in the code guarding it. *)
Theorem short_hash_display g w output w' (hash : string) (i : nat)
    (commit : gmap string string) :
  let short := String.substring 0 8 (commit !!! "hash") in
  let parts := Go.Split (Go.TrimSpace output) "|" in
  (8 ≤ Go.len (commit !!! "hash") →
   renderCommit i commit w
   = (Returned tt, w, [Stdout (commitLine i short commit)]) ∧
   renderPinnedCommit hash i commit w
   = (Returned tt, w,
      if String.eqb short hash
      then [Stdout (commitLine i short commit)] else [])) ∧
  (Go.len (commit !!! "hash") < 8 →
   renderCommit i commit w = (Panicked, w, []) ∧
   renderPinnedCommit hash i commit w = (Panicked, w, [])) ∧
  (git_output (repoPath g) lastCommitDetailsArgs w = ((output, None), w') →
   5 ≤ length parts →
   (8 ≤ Go.len (parts !!! 0%nat) →
    result (displayLastCommit g w) = Returned tt ∧
    Stdout ("Hash:    " +:+ String.substring 0 8 (parts !!! 0%nat) +:+ Go.nl)
    ∈ events (displayLastCommit g w)) ∧
   (Go.len (parts !!! 0%nat) < 8 →
    result (displayLastCommit g w) = Panicked)).
Proof.
  intros short parts. split; [|split].
  - intros Hlen. rewrite renderCommit_run, renderPinnedCommit_run.
    by rewrite (sliceTo_Some _ _ Hlen).
  - intros Hlen. rewrite renderCommit_run, renderPinnedCommit_run.
    by rewrite (sliceTo_None _ _ Hlen).
  - intros Hgit Hparts.
    pose proof (getLastCommitDetails_run _ _ _ _ Hgit) as Hrun.
    cbv zeta in Hrun. fold parts in Hrun.
    destruct (Nat.ltb_spec (length parts) 5) as [|_]; [lia|].
    unfold displayLastCommit.
    rewrite (bind_Returned _ _ w tt w
               [Stdout ("=== Last Commit Information ===" +:+ Go.nl)])
      by reflexivity.
    rewrite (bind_Returned _ _ _ _ _ _ Hrun).
    rewrite !(proj1 (run_projections _ _ _)),
      !(proj2 (proj2 (run_projections _ _ _))).
    cbv beta iota. rewrite detailsOfParts_hash. split.
    + intros Hlen. rewrite (sliceTo_Some _ _ Hlen).
      rewrite bind_result, bind_events. cbn [orPanic].
      split.
      * unfold bind, result, world, ret, Print, Println, emit; simpl.
        by destruct (String.eqb (detailsOfParts parts !!! "body") "").
      * change (result (ret (W:=W) (String.substring 0 8 (parts !!! 0%nat)) w'))
          with (Returned (A:=string) (String.substring 0 8 (parts !!! 0%nat))).
        cbv beta iota. rewrite bind_events.
        do 2 right. by left.
    + intros Hlen. rewrite (sliceTo_None _ _ Hlen).
      by rewrite bind_result.
Qed.

End Dispatch.

(** ** Concrete runs on the scripted backend *)

(** Counterexample to C1 as written: the first stage
    gets a commit whose hash has six bytes, the slice panics, and the
    second and third searches are never started. *)
Lemma short_hash_aborts_dispatch :
  let script : Script :=
    [(shortHashLine, None); (goodLine, None); ("main.go:7:// fix", None)] in
  result (performSearch tool "fix" script) = Panicked ∧
  execs (events (performSearch tool "fix" script)) = [commitHistoryArgs "fix" 1].
Proof. by vm_compute. Qed.

Lemma performSearch_stage_independence_witness :
  let script : Script :=
    [("", Some (ExitError 128 "exit status 128")); (goodLine, None);
     ("", Some (ExitError 2 "exit status 2"))] in
  result (performSearch tool "fix" script) = Returned tt ∧
  execs (events (performSearch tool "fix" script))
  = [commitHistoryArgs "fix" 1; commitHistoryArgs "fix" 10; filesArgs "fix"].
Proof.
  intros script.
  destruct (proj2 (performSearch_stage_independence tool "fix" script)
              ("", Some (ExitError 128 "exit status 128"))
              [(goodLine, None); ("", Some (ExitError 2 "exit status 2"))]
              (goodLine, None)
              [("", Some (ExitError 2 "exit status 2"))]
              ("", Some (ExitError 2 "exit status 2")) []
              eq_refl eq_refl eq_refl eq_refl eq_refl)
    as (Hret & Hcalls & _).
  exact (conj Hret Hcalls).
Defined.

Lemma searchInFiles_exit_status_witness :
  result (searchInFiles tool "TODO" 20
            ([("", Some (ExitError 1 "exit status 1"))] : Script))
  = Returned ([], None) ∧
  result (searchInFiles tool "TODO" 20
            ([("", Some (ExitError 2 "exit status 2"))] : Script))
  = Returned ([], Some (Errorf "failed to search in files: "
                               (ExitError 2 "exit status 2"))).
Proof.
  split.
  - apply (proj1 (searchInFiles_exit_status tool "TODO" 20
                    ([("", Some (ExitError 1 "exit status 1"))] : Script)
                    "" 1 "exit status 1" [] eq_refl)).
    reflexivity.
  - apply (proj2 (searchInFiles_exit_status tool "TODO" 20
                    ([("", Some (ExitError 2 "exit status 2"))] : Script)
                    "" 2 "exit status 2" [] eq_refl)).
    lia.
Defined.

(** Counterexample to C3 as written: a hash of six
    bytes makes each of the three places panic. *)
Lemma short_hash_panics :
  result (displayLastCommit tool
            ([("abc123|dev|dev@example.org|2024-05-01|fix typo", None)] : Script))
  = Panicked ∧
  result (stageLastCommit tool "fix" ([(shortHashLine, None)] : Script))
  = Panicked ∧
  result (stageCommitMessages tool "fix" ([(shortHashLine, None)] : Script))
  = Panicked.
Proof. by vm_compute. Qed.

Lemma short_hash_display_witness :
  let commit := mkCommit "0123456789abcdef" "dev" "2024-05-01" "fix typo" in
  renderCommit 0 commit ([] : Script)
  = (Returned tt, [], [Stdout (commitLine 0 "01234567" commit)]) ∧
  renderCommit 0 (mkCommit "abc123" "dev" "2024-05-01" "fix typo") ([] : Script)
  = (Panicked, [], []) ∧
  result (displayLastCommit tool ([(detailsLine, None)] : Script)) = Returned tt.
Proof.
  intros commit. split; [|split].
  - apply (proj1 (short_hash_display tool ([] : Script) "" [] "64fc5dd7" 0 commit)).
    vm_compute. lia.
  - apply (proj1 (proj2 (short_hash_display tool ([] : Script) "" [] "64fc5dd7" 0
                           (mkCommit "abc123" "dev" "2024-05-01" "fix typo")))).
    vm_compute. lia.
  - apply (proj2 (proj2 (short_hash_display tool ([(detailsLine, None)] : Script)
                           detailsLine [] "64fc5dd7" 0 commit))).
    + reflexivity.
    + vm_compute. lia.
    + vm_compute. lia.
Defined.

Lemma pinned_commit_stage_witness :
  execs (events (stageLastCommit tool "fix" ([(pinnedLine, None)] : Script)))
  = [["log"; "--grep=fix"; "-i"; "-1"; "--pretty=format:%H|%an|%ad|%s";
      "--date=short"]] ∧
  Stdout ("1. [64fc5dd7] fix typo - dev (2024-05-01)" +:+ Go.nl)
  ∈ events (stageLastCommit tool "fix" ([(pinnedLine, None)] : Script)) ∧
  stageLastCommit tool "fix" ([("", None)] : Script)
  = (Returned tt, [],
     [Stdout (Go.nl +:+ "--- Commit Messages ---" +:+ Go.nl);
      Exec "/repo" ["log"; "--grep=fix"; "-i"; "-1";
                    "--pretty=format:%H|%an|%ad|%s"; "--date=short"];
      Stdout ("No matches found in commit messages." +:+ Go.nl)]).
Proof.
  split; [|split].
  - exact (proj1 (pinned_commit_stage tool "fix" ([(pinnedLine, None)] : Script))).
  - pose proof (proj2 (pinned_commit_stage tool "fix"
                         ([(pinnedLine, None)] : Script))
                  pinnedLine [] eq_refl) as (_ & Hone & _).
    apply (Hone (mkCommit "64fc5dd7c0ffee00" "dev" "2024-05-01" "fix typo")
             eq_refl).
    reflexivity.
  - pose proof (proj2 (pinned_commit_stage tool "fix" ([("", None)] : Script))
                  "" [] eq_refl) as (Hnone & _).
    exact (Hnone eq_refl).
Defined.

(** Counterexample to C5 as written: the history
    search with cap 10 gives ten commits and no notice is printed. *)
Lemma history_cap_without_notice :
  let script : Script := [(tenCommits, None)] in
  (∃ commits,
     result (searchInCommitHistory tool "fix" 10 script) = Returned (commits, None)
     ∧ length commits = 10) ∧
  existsb isTruncationNotice (events (stageCommitMessages tool "fix" script))
  = false.
Proof.
  split; [|by vm_compute].
  eexists. split; [reflexivity | by vm_compute].
Qed.

Lemma truncation_notice_witness :
  let script : Script := [(Go.Join twentyMatches "010", None)] in
  existsb isTruncationNotice (events (stageFiles tool "TODO" script)) = true ∧
  last (events (stageFiles tool "TODO" script))
  = Some (Stdout (truncationNotice +:+ Go.nl)).
Proof.
  intros script.
  destruct (truncation_notice tool "TODO" script) as [Hfiles _].
  destruct (Hfiles twentyMatches eq_refl) as [Hnotice Hlast].
  split; [exact Hnotice | exact (Hlast eq_refl)].
Defined.

Lemma malformed_line_policy_witness :
  result (searchInCommitHistory tool "fix" 10
            ([(goodLine +:+ Go.nl +:+ "not a commit" +:+ Go.nl +:+ pinnedLine,
               None)] : Script))
  = Returned ([mkCommit "0123456789abcdef" "dev" "2024-05-01" "fix typo";
               mkCommit "64fc5dd7c0ffee00" "dev" "2024-05-01" "fix typo"],
              None) ∧
  result (getLastCommitDetails tool ([("abc|dev|fix", None)] : Script))
  = Returned (∅, Some (OtherError "unexpected git log output format")).
Proof.
  split.
  - exact (proj1 (malformed_line_policy tool "fix" 10
                    ([(goodLine +:+ Go.nl +:+ "not a commit" +:+ Go.nl
                       +:+ pinnedLine, None)] : Script) _ []) eq_refl).
  - apply (proj2 (malformed_line_policy tool "fix" 10
                    ([("abc|dev|fix", None)] : Script) "abc|dev|fix" [])).
    + reflexivity.
    + vm_compute. lia.
Defined.


Lemma hash_is_first_field_witness :
  (∃ records,
     result (searchInCommitHistory tool "fix" 10
               ([(goodLine +:+ Go.nl +:+ pinnedLine, None)] : Script))
     = Returned (records, None) ∧
     length records = 2 ∧
     Forall (λ r, r !!! "hash" ≠ "") records) ∧
  (∃ details,
     result (getLastCommitDetails tool ([(detailsLine, None)] : Script))
     = Returned (details, None) ∧
     details !!! "hash" = "0123456789abcdef" ∧ details !!! "hash" ≠ "").
Proof.
  split.
  - pose proof (proj1 (hash_is_first_field tool "fix" 10
                         ([(goodLine +:+ Go.nl +:+ pinnedLine, None)] : Script)
                         (goodLine +:+ Go.nl +:+ pinnedLine) [])
                  eq_refl) as Hhistory.
    cbv zeta in Hhistory. destruct Hhistory as (records & Hres & Hlines & Hall).
    exists records. split; [exact Hres|]. split.
    + by rewrite (Forall2_length _ _ _ Hlines).
    + apply Hall. reflexivity.
  - assert (result (getLastCommitDetails tool ([(detailsLine, None)] : Script))
            = Returned (detailsOfParts (Go.Split detailsLine "|"), None))
      as Hrun by reflexivity.
    eexists. split; [exact Hrun|].
    destruct (proj2 (hash_is_first_field tool "fix" 10
                       ([(detailsLine, None)] : Script) detailsLine [])
                eq_refl _ Hrun) as (Hhash & _ & Hfirst).
    split; [exact Hhash|]. apply Hfirst. reflexivity.
Defined.

(** Counterexample to C9 as written: the search for the first line gets
    a commit whose hash has six bytes and panics; the session ends
    there, and the next line, which is neither blank nor an exit token,
    is never searched for. *)
Lemma short_hash_ends_session :
  let script : Script := [(shortHashLine, None)] in
  result (interactiveSearch tool ["fix"; "more"; "quit"] script) = Panicked ∧
  banners (events (interactiveSearch tool ["fix"; "more"; "quit"] script))
  = [searchBanner "fix"] ∧
  specDispatches ["fix"; "more"; "quit"] = ["fix"; "more"].
Proof. by vm_compute. Qed.

Lemma interactiveSearch_transitions_witness :
  interactiveSearch tool [" q "; "fix"] ([] : Script)
  = (Returned tt, [], [Stdout prompt]).
Proof.
  pose proof (proj1 (proj2 (interactiveSearch_transitions tool ([] : Script)))
                " q " ["fix"]) as Hturn.
  cbv zeta in Hturn. exact (proj1 Hturn eq_refl).
Defined.

Lemma details_body_field_witness :
  ∃ details,
    result (getLastCommitDetails tool ([(detailsLine, None)] : Script))
    = Returned (details, None) ∧ details !!! "body" = "first".
Proof.
  pose proof (details_body_field tool ([(detailsLine, None)] : Script)
                detailsLine [] eq_refl) as Hbody.
  cbv zeta in Hbody. destruct Hbody as (_ & _ & Hcut).
  apply (Hcut "0123456789abcdef" "dev" "dev@example.org" "2024-05-01"
           "fix typo" "first" "second").
  - repeat constructor.
  - reflexivity.
Defined.

(** ** Beyond the stated claims: white-space trimming *)

Lemma append_assoc (s t u : string) : (s +:+ t) +:+ u = s +:+ (t +:+ u).
Proof.
  induction s as [|a s IH]; [done|].
  change (String a ((s +:+ t) +:+ u) = String a (s +:+ (t +:+ u))).
  by rewrite IH.
Qed.

Lemma append_nil_r (s : string) : s +:+ "" = s.
Proof.
  induction s as [|a s IH]; [done|].
  change (String a (s +:+ "") = String a s). by rewrite IH.
Qed.

Lemma rev_app_append (s t : string) :
  String.rev_app s t = String.rev s +:+ t.
Proof.
  revert t. induction s as [|a s IH]; intros t; [done|].
  unfold String.rev. cbn [String.rev_app].
  rewrite (IH (String a t)), (IH (String a "")).
  by rewrite append_assoc.
Qed.

Lemma rev_cons (a : ascii) (s : string) :
  String.rev (String a s) = String.rev s +:+ String a "".
Proof. unfold String.rev at 1. cbn [String.rev_app]. apply rev_app_append. Qed.

Lemma rev_append (s t : string) :
  String.rev (s +:+ t) = String.rev t +:+ String.rev s.
Proof.
  induction s as [|a s IH]; [by rewrite append_nil_r|].
  change (String a s +:+ t) with (String a (s +:+ t)).
  by rewrite !rev_cons, IH, append_assoc.
Qed.

Lemma rev_involutive (s : string) : String.rev (String.rev s) = s.
Proof.
  induction s as [|a s IH]; [done|].
  by rewrite rev_cons, rev_append, IH.
Qed.

Lemma trimLeft_unfold (s : string) :
  Go.trimLeft s =
  match s with
  | String a s1 =>
      if Ascii.is_space a then Go.trimLeft s1
      else match s1 with
           | String b s2 =>
               if Go.isSpace2 a b then Go.trimLeft s2
               else match s2 with
                    | String c s3 =>
                        if Go.isSpace3 a b c then Go.trimLeft s3 else s
                    | EmptyString => s
                    end
           | EmptyString => s
           end
  | EmptyString => EmptyString
  end.
Proof. by destruct s. Qed.

Lemma trimLeftRev_unfold (r : string) :
  Go.trimLeftRev r =
  match r with
  | String a r1 =>
      if Ascii.is_space a then Go.trimLeftRev r1
      else match r1 with
           | String b r2 =>
               if Go.isSpace2 b a then Go.trimLeftRev r2
               else match r2 with
                    | String c r3 =>
                        if Go.isSpace3 c b a then Go.trimLeftRev r3 else r
                    | EmptyString => r
                    end
           | EmptyString => r
           end
  | EmptyString => EmptyString
  end.
Proof. by destruct r. Qed.

Lemma trimLeft_startsClean (s : string) : startsClean (Go.trimLeft s).
Proof.
  assert (∀ n s, String.length s ≤ n → startsClean (Go.trimLeft s)) as Hall;
    [|by apply (Hall (String.length s))].
  clear s. induction n as [|n IH]; intros s Hlen; rewrite trimLeft_unfold.
  - by destruct s; [|simpl in Hlen; lia].
  - destruct s as [|a [|b [|c s3]]]; cbn [String.length] in Hlen; [done|..];
      destruct (Ascii.is_space a) eqn:Ha; try done; try (apply IH; cbn; lia).
    + destruct (Go.isSpace2 a b); [apply IH; cbn; lia | done].
    + destruct (Go.isSpace2 a b); [apply IH; cbn; lia|].
      destruct (Go.isSpace3 a b c); [apply IH; lia | done].
Qed.

Lemma trimLeftRev_startsClean (r : string) : startsClean (Go.trimLeftRev r).
Proof.
  assert (∀ n r, String.length r ≤ n → startsClean (Go.trimLeftRev r)) as Hall;
    [|by apply (Hall (String.length r))].
  clear r. induction n as [|n IH]; intros r Hlen; rewrite trimLeftRev_unfold.
  - by destruct r; [|simpl in Hlen; lia].
  - destruct r as [|a [|b [|c r3]]]; cbn [String.length] in Hlen; [done|..];
      destruct (Ascii.is_space a) eqn:Ha; try done; try (apply IH; cbn; lia).
    + destruct (Go.isSpace2 b a); [apply IH; cbn; lia | done].
    + destruct (Go.isSpace2 b a); [apply IH; cbn; lia|].
      destruct (Go.isSpace3 c b a); [apply IH; lia | done].
Qed.

(** Trimming only removes: the result is a suffix of the argument. *)
Lemma trimLeftRev_suffix (r : string) : ∃ p, r = p +:+ Go.trimLeftRev r.
Proof.
  assert (∀ n r, String.length r ≤ n → ∃ p, r = p +:+ Go.trimLeftRev r)
    as Hall; [|by apply (Hall (String.length r))].
  clear r. induction n as [|n IH]; intros r Hlen; rewrite trimLeftRev_unfold.
  - destruct r; [by exists "" | simpl in Hlen; lia].
  - destruct r as [|a [|b [|c r3]]]; cbn [String.length] in Hlen;
      [by exists ""|..]; destruct (Ascii.is_space a).
    + exists (String a ""). done.
    + by exists "".
    + destruct (IH (String b "")) as [p Hp]; [cbn; lia|].
      exists (String a p). by rewrite Hp at 1.
    + destruct (Go.isSpace2 b a); [by exists (String a (String b "")) | by exists ""].
    + destruct (IH (String b (String c r3))) as [p Hp]; [cbn; lia|].
      exists (String a p). by rewrite Hp at 1.
    + destruct (Go.isSpace2 b a).
      * destruct (IH (String c r3)) as [p Hp]; [cbn; lia|].
        exists (String a (String b p)). by rewrite Hp at 1.
      * destruct (Go.isSpace3 c b a); [|by exists ""].
        destruct (IH r3) as [p Hp]; [lia|].
        exists (String a (String b (String c p))). by rewrite Hp at 1.
Qed.

Lemma trimRight_prefix (s : string) : ∃ x, s = Go.trimRight s +:+ x.
Proof.
  unfold Go.trimRight.
  destruct (trimLeftRev_suffix (String.rev s)) as [p Hp].
  exists (String.rev p).
  rewrite <- rev_append, <- Hp. by rewrite rev_involutive.
Qed.

Lemma TrimSpace_asciiTrimmed (s : string) : asciiTrimmed (Go.TrimSpace s) = true.
Proof.
  unfold asciiTrimmed, Go.TrimSpace.
  pose proof (trimLeft_startsClean s) as Hleft.
  destruct (trimRight_prefix (Go.trimLeft s)) as [x Hx].
  pose proof (trimLeftRev_startsClean (String.rev (Go.trimLeft s))) as Hright.
  unfold Go.trimRight in *.
  set (u := Go.trimLeftRev (String.rev (Go.trimLeft s))) in *.
  destruct (String.rev u) as [|a q] eqn:Hq; [done|].
  rewrite <- Hq, rev_involutive.
  rewrite Hx in Hleft. cbn in Hleft.
  destruct u as [|b u']; [done|].
  cbn in Hright. by rewrite Hleft, Hright.
Qed.

(** ** Beyond the stated claims: the three lookups *)

Lemma hasByte_append (c : ascii) (s t : string) :
  Go.hasByte c (s +:+ t) = Go.hasByte c s || Go.hasByte c t.
Proof.
  induction s as [|a s IH]; [done|].
  change (String a s +:+ t) with (String a (s +:+ t)).
  cbn [Go.hasByte]. by rewrite IH, orb_assoc.
Qed.

(** Joining fields that are free of a byte with another separator keeps
    the text free of it. *)
Lemma hasByte_Join (c sep : ascii) (fields : list string) :
  c ≠ sep →
  Forall (λ a, Go.hasByte c a = false) fields →
  Go.hasByte c (Go.Join fields sep) = false.
Proof.
  intros Hsep. induction 1 as [|a fields Ha Hfields IH]; [done|].
  destruct fields as [|b fields]; [done|].
  change (Go.Join (a :: b :: fields) sep)
    with (a +:+ String sep (Go.Join (b :: fields) sep)).
  rewrite hasByte_append, Ha. cbn [Go.hasByte orb].
  rewrite IH. by apply orb_false_iff, conj; [apply Ascii.eqb_neq|].
Qed.

(** Splitting what was joined gives the fields back. *)
Lemma Split_Join_all (sep : ascii) (fields : list string) :
  fields ≠ [] →
  Forall (λ a, Go.hasByte sep a = false) fields →
  Go.Split (Go.Join fields sep) sep = fields.
Proof.
  intros Hne Hfields.
  destruct (exists_last Hne) as (init & last & ->).
  apply Forall_app in Hfields as [Hinit Hlast].
  rewrite (Split_Join sep init last Hinit).
  by rewrite (Split_last_field sep last) by by inversion Hlast.
Qed.

(** Joining what was split gives the text back: splitting loses
    nothing. *)
Lemma Join_Split (sep : ascii) (s : string) : Go.Join (Go.Split s sep) sep = s.
Proof.
  induction s as [|c s IH]; [done|]. cbn [Go.Split].
  destruct (Ascii.eqb_spec c sep) as [->|Hc].
  - pose proof (Split_nonempty sep s) as Hne.
    destruct (Go.Split s sep) as [|f fs] eqn:Hs; [done|].
    change (Go.Join ("" :: f :: fs) sep)
      with ("" +:+ String sep (Go.Join (f :: fs) sep)).
    by rewrite IH.
  - pose proof (Split_nonempty sep s) as Hne.
    destruct (Go.Split s sep) as [|f fs] eqn:Hs; [done|].
    destruct fs as [|f' fs].
    + cbn in IH. by rewrite <- IH.
    + change (Go.Join (String c f :: f' :: fs) sep)
        with (String c (f +:+ String sep (Go.Join (f' :: fs) sep))).
      by rewrite <- IH.
Qed.

Section MoreLookups.
Context {W : Type} `{!Backend W}.
Implicit Types (g : GitSearchTool) (w : W) (query output : string).

(** X1. A successful file search with a limit that is not negative
    returns the first [maxResults] lines of the trimmed output, in
    order: never more than the limit, and all the lines when they fit. *)
Theorem searchInFiles_limit g query maxResults w output w' :
  git_output (repoPath g) (filesArgs query) w = ((output, None), w') →
  (0 ≤ maxResults)%Z →
  let lines := Go.Split (Go.TrimSpace output) "010" in
  ∃ fileMatches,
    result (searchInFiles g query maxResults w) = Returned (fileMatches, None) ∧
    fileMatches = take (Z.to_nat maxResults) lines ∧
    (Z.of_nat (length fileMatches) ≤ maxResults)%Z ∧
    fileMatches `prefix_of` lines ∧
    ((Z.of_nat (length lines) ≤ maxResults)%Z → fileMatches = lines).
Proof.
  intros Hgit Hlimit lines.
  rewrite (searchInFiles_succeeded _ _ _ _ _ _ Hgit). fold lines.
  destruct (Z.ltb_spec maxResults 0) as [|_]; [lia|].
  eexists. split; [reflexivity|]. split; [done|]. split; [|split].
  - rewrite length_take. lia.
  - apply prefix_take.
  - intros Hfit. apply take_ge. lia.
Qed.

(** X2. With a negative limit a successful file search panics: the
    output always has at least one line, so the guard passes and the
    slice bound is negative. *)
Theorem searchInFiles_negative_limit g query maxResults w output w' :
  git_output (repoPath g) (filesArgs query) w = ((output, None), w') →
  (maxResults < 0)%Z →
  searchInFiles g query maxResults w
  = (Panicked, w', [Exec (repoPath g) (filesArgs query)]).
Proof.
  intros Hgit Hlimit.
  rewrite (searchInFiles_succeeded _ _ _ _ _ _ Hgit).
  by destruct (Z.ltb_spec maxResults 0) as [_|]; [|lia].
Qed.

Lemma mkCommit_fields (hash author date subject : string) :
  mkCommit hash author date subject !!! "hash" = hash ∧
  mkCommit hash author date subject !!! "author" = author ∧
  mkCommit hash author date subject !!! "date" = date ∧
  mkCommit hash author date subject !!! "subject" = subject.
Proof.
  unfold mkCommit, commitOfParts.
  repeat split;
    repeat (rewrite lookup_total_insert_ne by done);
    by rewrite lookup_total_insert_eq.
Qed.

Lemma lineOfRow_Split (row : string * string * string * string) :
  cleanRow row →
  Go.Split (lineOfRow row) "|"
  = [row.1.1.1; row.1.1.2; row.1.2; row.2]
  ∧ Go.hasByte "010" (lineOfRow row) = false.
Proof.
  destruct row as [[[hash author] date] subject]. intros Hclean.
  unfold cleanRow in Hclean. split.
  - apply Split_Join_all; [done|].
    eapply Forall_impl; [exact Hclean|]. by intros a [Ha _].
  - apply hasByte_Join; [done|].
    eapply Forall_impl; [exact Hclean|]. by intros a [_ Ha].
Qed.

Lemma commits_of_rows (rows : list (string * string * string * string)) :
  Forall cleanRow rows →
  (λ line, commitOfParts (Go.Split line "|"))
    <$> filter (λ line, 4 ≤ length (Go.Split line "|")) (lineOfRow <$> rows)
  = commitOfRow <$> rows.
Proof.
  induction 1 as [|row rows Hrow _ IH]; [done|].
  destruct (lineOfRow_Split row Hrow) as [Hsplit _].
  rewrite fmap_cons, filter_cons, decide_True by (rewrite Hsplit; simpl; lia).
  rewrite !fmap_cons, IH, Hsplit.
  by destruct row as [[[hash author] date] subject].
Qed.

(** X3. Round trip of the history format.  When the trimmed output is
    the lines of some commits, each the four fields joined by pipes and
    the fields free of pipe and newline, the search returns one record
    per commit, in order, whose hash, author, date and subject are those
    fields exactly.  It returns all of them whatever [maxResults] is:
    the limit is left to [git]. *)
Theorem searchInCommitHistory_roundtrip g query maxResults w output w'
    (rows : list (string * string * string * string)) :
  git_output (repoPath g) (commitHistoryArgs query maxResults) w
    = ((output, None), w') →
  Forall cleanRow rows →
  Go.TrimSpace output = Go.Join (lineOfRow <$> rows) "010" →
  result (searchInCommitHistory g query maxResults w)
  = Returned (commitOfRow <$> rows, None) ∧
  Forall (λ row,
            commitOfRow row !!! "hash" = row.1.1.1 ∧
            commitOfRow row !!! "author" = row.1.1.2 ∧
            commitOfRow row !!! "date" = row.1.2 ∧
            commitOfRow row !!! "subject" = row.2) rows.
Proof.
  intros Hgit Hrows Hout. split.
  - rewrite (searchInCommitHistory_run _ _ _ _ _ _ _ Hgit).
    rewrite (proj1 (run_projections _ _ _)).
    unfold commitsOfOutput. rewrite Hout, fold_appendCommit. cbn [app].
    destruct rows as [|row rows]; [done|].
    rewrite Split_Join_all; [by rewrite commits_of_rows| done |].
    apply Forall_fmap. eapply Forall_impl; [exact Hrows|].
    intros r Hr. apply (lineOfRow_Split r Hr).
  - apply Forall_forall. intros [[[hash author] date] subject] _.
    apply mkCommit_fields.
Qed.

(** X4. A history line with more than four fields: the subject is the
    fourth field and what follows it is dropped, so a subject that holds
    the pipe is cut at its first pipe. *)
Theorem searchInCommitHistory_extra_fields g query maxResults w output w'
    (hash author date subject rest : string) :
  git_output (repoPath g) (commitHistoryArgs query maxResults) w
    = ((output, None), w') →
  Forall cleanField [hash; author; date; subject] →
  Go.hasByte "010" rest = false →
  Go.TrimSpace output = Go.Join [hash; author; date; subject; rest] "|" →
  result (searchInCommitHistory g query maxResults w)
  = Returned ([mkCommit hash author date subject], None).
Proof.
  intros Hgit Hfields Hrest Hout.
  rewrite (searchInCommitHistory_run _ _ _ _ _ _ _ Hgit).
  rewrite (proj1 (run_projections _ _ _)).
  unfold commitsOfOutput. rewrite Hout, fold_appendCommit. cbn [app].
  assert (Go.Split (Go.Join [hash; author; date; subject; rest] "|") "|"
          = [hash; author; date; subject] ++ Go.Split rest "|") as Hsplit.
  { apply (Split_Join "|" [hash; author; date; subject] rest).
    eapply Forall_impl; [exact Hfields|]. by intros a [Ha _]. }
  rewrite Split_last_field.
  - rewrite filter_cons, decide_True, filter_nil
      by (rewrite Hsplit, length_app; simpl; lia).
    by rewrite fmap_cons, Hsplit.
  - apply hasByte_Join; [done|].
    apply (Forall_app _ [hash; author; date; subject] [rest]). split.
    + eapply Forall_impl; [exact Hfields|]. by intros a [_ Ha].
    + by repeat constructor.
Qed.

Lemma commitOfParts_dom (parts : list string) :
  dom (commitOfParts parts)
  = ({["hash"; "author"; "date"; "subject"]} : gset string).
Proof.
  unfold commitOfParts. rewrite !dom_insert_L, dom_empty_L.
  by rewrite (right_id_L ∅ (∪)), !(assoc_L (∪)).
Qed.

Lemma detailsOfParts_dom (parts : list string) :
  dom (detailsOfParts parts)
  = ({["hash"; "author"; "email"; "date"; "subject"; "body"]} : gset string).
Proof.
  assert (dom (<["hash" := parts !!! 0%nat]>
               (<["author" := parts !!! 1%nat]>
               (<["email" := parts !!! 2%nat]>
               (<["date" := parts !!! 3%nat]>
               (<["subject" := parts !!! 4%nat]>
               (<["body" := ""]> (∅ : gmap string string)))))))
          = ({["hash"; "author"; "email"; "date"; "subject"; "body"]}
             : gset string)) as Hdom.
  { rewrite !dom_insert_L, dom_empty_L.
    by rewrite (right_id_L ∅ (∪)), !(assoc_L (∪)). }
  unfold detailsOfParts. destruct (5 <? length parts)%nat; [|exact Hdom].
  rewrite dom_insert_L, Hdom.
  apply set_eq. intros k. rewrite elem_of_union, elem_of_singleton.
  split; [|by right]. intros [->|?]; [|done].
  rewrite !elem_of_union, !elem_of_singleton. by right.
Qed.

(** X5. The keys of the records.  Every record of the history search
    has exactly the keys hash, author, date and subject, so email and
    body read as the empty string there; the record of the detail fetch
    has exactly the six keys hash, author, email, date, subject and
    body, the body key being there even when the output has no body. *)
Theorem record_keys g query maxResults w :
  (∀ records r,
     result (searchInCommitHistory g query maxResults w)
     = Returned (records, None) →
     r ∈ records →
     dom r = ({["hash"; "author"; "date"; "subject"]} : gset string) ∧
     r !!! "email" = "" ∧ r !!! "body" = "") ∧
  (∀ details,
     result (getLastCommitDetails g w) = Returned (details, None) →
     dom details
     = ({["hash"; "author"; "email"; "date"; "subject"; "body"]} : gset string)).
Proof.
  split.
  - intros records r.
    destruct (git_output (repoPath g) (commitHistoryArgs query maxResults) w)
      as [[output err] w'] eqn:Hgit.
    rewrite (searchInCommitHistory_run _ _ _ _ _ _ _ Hgit).
    rewrite (proj1 (run_projections _ _ _)).
    destruct err as [e|]; [done|]. intros [= <-].
    unfold commitsOfOutput. rewrite fold_appendCommit. cbn [app].
    intros (line & -> & _)%list_elem_of_fmap.
    split; [apply commitOfParts_dom|].
    unfold commitOfParts.
    by split; repeat (rewrite lookup_total_insert_ne by done);
      rewrite lookup_total_empty.
  - intros details.
    destruct (git_output (repoPath g) lastCommitDetailsArgs w)
      as [[output err] w'] eqn:Hgit.
    destruct err as [e|].
    + unfold getLastCommitDetails, bind, Output. by rewrite Hgit.
    + rewrite (getLastCommitDetails_run _ _ _ _ Hgit).
      rewrite (proj1 (run_projections _ _ _)). cbv zeta.
      destruct (length (Go.Split (Go.TrimSpace output) "|") <? 5)%nat; [done|].
      intros [= <-]. apply detailsOfParts_dom.
Qed.

(** X6. The last commit message.  One [git log -1] call, never a panic;
    a backend error gives the empty message with the error wrapped; on
    success the message is the trimmed output, which has no ASCII white
    space at either end. *)
Theorem getLastCommitMessage_trimmed g w output err w' :
  git_output (repoPath g) lastCommitMessageArgs w = ((output, err), w') →
  ∃ message err',
    getLastCommitMessage g w
    = (Returned (message, err'), w', [Exec (repoPath g) lastCommitMessageArgs]) ∧
    asciiTrimmed message = true ∧
    (∀ e, err = Some e →
       message = "" ∧
       err' = Some (Errorf "failed to get commit message: " e)) ∧
    (err = None → message = Go.TrimSpace output ∧ err' = None).
Proof.
  intros Hgit. unfold getLastCommitMessage, bind, Output. rewrite Hgit.
  destruct err as [e|]; eexists _, _; (split; [reflexivity|]).
  - split; [done|]. split; [by intros ? [= <-] | done].
  - split; [apply TrimSpace_asciiTrimmed|]. by split.
Qed.

End MoreLookups.

(** ** Beyond the stated claims: rendering and dispatch *)

(** [%d] begins with a digit or the minus sign. *)
Lemma itoa_first_digit (z : Z) :
  ∃ c rest, Go.itoa z = String c rest ∧
    (nat_of_ascii c = 45 ∨ 48 ≤ nat_of_ascii c ≤ 57).
Proof.
  unfold Go.itoa.
  destruct (Z.to_int z) as [d|d]; simpl.
  - destruct d; simpl; eexists _, _;
      (split; [reflexivity | right; vm_compute; lia]).
  - eexists _, _; split; [reflexivity | by left].
Qed.

Section MoreDispatch.
Context {W : Type} `{!Backend W}.
Implicit Types (g : GitSearchTool) (w : W) (query output : string).
Implicit Types (commit : gmap string string).

Lemma forRangeFrom_renderCommit (i : nat) (commits : list (gmap string string)) w :
  forallb sliceable commits = true →
  forRangeFrom i commits renderCommit w
  = (Returned tt, w,
     imap (λ j commit,
             Stdout (commitLine (i + j)
                       (String.substring 0 8 (commit !!! "hash")) commit))
          commits).
Proof.
  revert i. induction commits as [|commit commits IH]; intros i Hall; [done|].
  cbn [forallb] in Hall. apply andb_true_iff in Hall as [Hc Hall].
  cbn [forRangeFrom].
  rewrite (bind_Returned _ _ w tt w
             [Stdout (commitLine i (String.substring 0 8 (commit !!! "hash"))
                        commit)])
    by (by rewrite renderCommit_run, (sliceable_sliceTo _ Hc)).
  rewrite (IH (S i) Hall).
  rewrite !(proj1 (run_projections _ _ _)),
    (proj1 (proj2 (run_projections _ _ _))),
    (proj2 (proj2 (run_projections _ _ _))).
  rewrite imap_cons, Nat.add_0_r. cbn [app]. do 2 f_equal.
  apply imap_ext. intros j c _. cbn. by rewrite Nat.add_succ_r.
Qed.

Lemma forRangeFrom_printMatches (i : nat) (fileMatches : list string) w :
  forRangeFrom i fileMatches (λ j m, Print (matchLine j m)) w
  = (Returned tt, w, imap (λ j m, Stdout (matchLine (i + j) m)) fileMatches).
Proof.
  revert i. induction fileMatches as [|m ms IH]; intros i; [done|].
  cbn [forRangeFrom].
  rewrite (bind_Returned _ _ w tt w [Stdout (matchLine i m)]) by reflexivity.
  rewrite (IH (S i)).
  rewrite !(proj1 (run_projections _ _ _)),
    (proj1 (proj2 (run_projections _ _ _))),
    (proj2 (proj2 (run_projections _ _ _))).
  rewrite imap_cons, Nat.add_0_r. cbn [app]. do 2 f_equal.
  apply imap_ext. intros j c _. cbn. by rewrite Nat.add_succ_r.
Qed.

(** A commit loop panics at the first record whose hash is too short. *)
Lemma forRangeFrom_short_hash (body : nat → gmap string string → M W unit)
    (i : nat) (commits : list (gmap string string)) w :
  (∀ j commit w0,
     world (body j commit w0) = w0 ∧
     result (body j commit w0)
     = if sliceable commit then Returned tt else Panicked) →
  result (forRangeFrom i commits body w)
  = if forallb sliceable commits then Returned tt else Panicked.
Proof.
  intros Hbody. revert i.
  induction commits as [|commit commits IH]; intros i; [done|].
  cbn [forRangeFrom forallb]. rewrite bind_result.
  destruct (Hbody i commit w) as [-> ->].
  destruct (sliceable commit); [apply IH | done].
Qed.

Lemma sliceable_false commit :
  sliceable commit = false → Go.sliceTo (commit !!! "hash") 8 = None.
Proof.
  intros Hshort. apply sliceTo_None.
  unfold sliceable in Hshort. by apply Nat.leb_gt in Hshort.
Qed.

Lemma renderCommit_result (j : nat) commit w :
  world (renderCommit j commit w) = w ∧
  result (renderCommit j commit w)
  = if sliceable commit then Returned tt else Panicked.
Proof.
  rewrite renderCommit_run.
  destruct (sliceable commit) eqn:Hc.
  - by rewrite (sliceable_sliceTo _ Hc).
  - by rewrite (sliceable_false _ Hc).
Qed.

Lemma renderPinnedCommit_result (hash : string) (j : nat) commit w :
  world (renderPinnedCommit hash j commit w) = w ∧
  result (renderPinnedCommit hash j commit w)
  = if sliceable commit then Returned tt else Panicked.
Proof.
  rewrite renderPinnedCommit_run.
  destruct (sliceable commit) eqn:Hc.
  - by rewrite (sliceable_sliceTo _ Hc).
  - by rewrite (sliceable_false _ Hc).
Qed.

(** The two commit stages return exactly on the renderable answers. *)
Lemma stageLastCommit_result g query w answer w' :
  git_output (repoPath g) (commitHistoryArgs query 1) w = (answer, w') →
  result (stageLastCommit g query w)
  = if renderable answer then Returned tt else Panicked.
Proof.
  intros Hgit. destruct answer as [output err].
  pose proof (searchInCommitHistory_run _ _ _ _ _ _ _ Hgit) as Hrun.
  unfold stageLastCommit.
  rewrite (bind_Returned _ _ w tt w [Stdout (commitsHeader +:+ Go.nl)])
    by reflexivity.
  rewrite (bind_Returned _ _ _ _ _ _ Hrun).
  rewrite !(proj1 (run_projections _ _ _)).
  destruct err as [e|]; [done|]. unfold renderable; cbn [fst snd].
  destruct (commitsOfOutput output) as [|c cs]; [done|].
  cbn [length Nat.eqb]. apply forRangeFrom_short_hash.
  intros. apply renderPinnedCommit_result.
Qed.

Lemma stageCommitMessages_result g query w answer w' :
  git_output (repoPath g) (commitHistoryArgs query 10) w = (answer, w') →
  result (stageCommitMessages g query w)
  = if renderable answer then Returned tt else Panicked.
Proof.
  intros Hgit. destruct answer as [output err].
  pose proof (searchInCommitHistory_run _ _ _ _ _ _ _ Hgit) as Hrun.
  unfold stageCommitMessages.
  rewrite (bind_Returned _ _ w tt w [Stdout (commitsHeader +:+ Go.nl)])
    by reflexivity.
  rewrite (bind_Returned _ _ _ _ _ _ Hrun).
  rewrite !(proj1 (run_projections _ _ _)).
  destruct err as [e|]; [done|]. unfold renderable; cbn [fst snd].
  destruct (commitsOfOutput output) as [|c cs]; [done|].
  cbn [length Nat.eqb]. apply forRangeFrom_short_hash.
  intros. apply renderCommit_result.
Qed.

(** X7. The report of the history stage.  When every returned commit
    has a hash of at least 8 bytes, the stage prints its header and then
    one line per commit, in the order returned and numbered from 1, with
    the first 8 bytes of the hash; with no commit it prints the
    no-match message instead. *)
Theorem stageCommitMessages_rendering g query w output w' :
  git_output (repoPath g) (commitHistoryArgs query 10) w
    = ((output, None), w') →
  forallb sliceable (commitsOfOutput output) = true →
  stageCommitMessages g query w
  = (Returned tt, w',
     Stdout (commitsHeader +:+ Go.nl)
     :: Exec (repoPath g) (commitHistoryArgs query 10)
     :: match commitsOfOutput output with
        | [] => [Stdout ("No matches found in commit messages." +:+ Go.nl)]
        | commits =>
            imap (λ i commit,
                    Stdout (commitLine i
                              (String.substring 0 8 (commit !!! "hash"))
                              commit))
                 commits
        end).
Proof.
  intros Hgit Hall.
  pose proof (searchInCommitHistory_run _ _ _ _ _ _ _ Hgit) as Hrun.
  unfold stageCommitMessages.
  rewrite (bind_Returned _ _ w tt w [Stdout (commitsHeader +:+ Go.nl)])
    by reflexivity.
  rewrite (bind_Returned _ _ _ _ _ _ Hrun).
  destruct (commitsOfOutput output) as [|c cs]; [done|].
  cbn [length Nat.eqb]. unfold forRange.
  by rewrite (forRangeFrom_renderCommit 0 (c :: cs) w' Hall).
Qed.

(** X20. The report of the first stage.  When every returned commit has
    a hash of at least 8 bytes, the stage prints, of the commits
    returned, exactly those whose first 8 bytes are the pinned value
    [64fc5dd7], each with the number of its position in the returned
    list; a commit that does not match prints nothing, and with no
    commit at all the no-match message is printed. *)
Theorem stageLastCommit_rendering g query w output w' :
  git_output (repoPath g) (commitHistoryArgs query 1) w
    = ((output, None), w') →
  forallb sliceable (commitsOfOutput output) = true →
  stageLastCommit g query w
  = (Returned tt, w',
     Stdout (commitsHeader +:+ Go.nl)
     :: Exec (repoPath g) (commitHistoryArgs query 1)
     :: match commitsOfOutput output with
        | [] => [Stdout ("No matches found in commit messages." +:+ Go.nl)]
        | commits =>
            mjoin (imap (λ i commit,
                           if String.eqb
                                (String.substring 0 8 (commit !!! "hash"))
                                "64fc5dd7"
                           then [Stdout (commitLine i
                                           (String.substring 0 8
                                              (commit !!! "hash"))
                                           commit)]
                           else [])
                        commits)
        end).
Proof.
  intros Hgit Hall.
  pose proof (searchInCommitHistory_run _ _ _ _ _ _ _ Hgit) as Hrun.
  unfold stageLastCommit.
  rewrite (bind_Returned _ _ w tt w [Stdout (commitsHeader +:+ Go.nl)])
    by reflexivity.
  rewrite (bind_Returned _ _ _ _ _ _ Hrun).
  destruct (commitsOfOutput output) as [|c cs]; [done|].
  cbn [length Nat.eqb]. unfold forRange.
  by rewrite (forRangeFrom_renderPinnedCommit "64fc5dd7" 0 (c :: cs) w' Hall).
Qed.

(** X8. The report of the file stage on a successful search: the
    header, one line per match kept (the first 20 lines of the trimmed
    output), in order and numbered from 1, and the truncation notice
    last when 20 were kept. *)
Theorem stageFiles_rendering g query w output w' :
  git_output (repoPath g) (filesArgs query) w = ((output, None), w') →
  let fileMatches := take 20 (Go.Split (Go.TrimSpace output) "010") in
  stageFiles g query w
  = (Returned tt, w',
     Stdout (filesHeader +:+ Go.nl)
     :: Exec (repoPath g) (filesArgs query)
     :: imap (λ i m, Stdout (matchLine i m)) fileMatches
     ++ (if (length fileMatches =? 20)%nat
         then [Stdout (truncationNotice +:+ Go.nl)] else [])).
Proof.
  intros Hgit fileMatches.
  pose proof (searchInFiles_succeeded g query 20 _ _ _ Hgit) as Hrun.
  cbv zeta in Hrun. change (20 <? 0)%Z with false in Hrun.
  change (Z.to_nat 20) with 20 in Hrun. fold fileMatches in Hrun.
  unfold stageFiles.
  rewrite (bind_Returned _ _ w tt w [Stdout (filesHeader +:+ Go.nl)])
    by reflexivity.
  rewrite (bind_Returned _ _ _ _ _ _ Hrun).
  assert (fileMatches ≠ []) as Hne.
  { unfold fileMatches.
    pose proof (Split_nonempty "010" (Go.TrimSpace output)) as Hlines.
    by destruct (Go.Split (Go.TrimSpace output) "010"). }
  destruct fileMatches as [|m ms]; [done|].
  cbn [length Nat.eqb]. unfold forRange.
  rewrite (bind_Returned _ _ _ _ _ _ (forRangeFrom_printMatches 0 (m :: ms) w')).
  rewrite !(proj1 (run_projections _ _ _)),
    !(proj1 (proj2 (run_projections _ _ _))),
    !(proj2 (proj2 (run_projections _ _ _))).
  by destruct (length ms =? 19)%nat.
Qed.

(** X9. The file stage prints its no-match message exactly when the
    backend exits with status 1: a search that succeeds always has at
    least one line to show, and any other failure is logged instead. *)
Theorem stageFiles_no_match_message g query w answer w' :
  git_output (repoPath g) (filesArgs query) w = (answer, w') →
  Stdout ("No matches found in tracked files." +:+ Go.nl)
    ∈ events (stageFiles g query w)
  ↔ ∃ text, answer.2 = Some (ExitError 1 text).
Proof.
  intros Hgit. destruct answer as [output [e|]]; cbn [snd].
  - pose proof (searchInFiles_failed g query 20 _ _ _ _ Hgit) as Hrun.
    unfold stageFiles.
    rewrite (bind_Returned _ _ w tt w [Stdout (filesHeader +:+ Go.nl)])
      by reflexivity.
    rewrite (bind_Returned _ _ _ _ _ _ Hrun).
    rewrite !(proj2 (proj2 (run_projections _ _ _))).
    destruct e as [[|[p|p|]|p] text|text]; cbn [app];
      (split; [intros Hin | intros [text' Heq]]).
    all: first
      [ by eexists
      | discriminate Heq
      | by do 2 right; left
      | exfalso;
        repeat (apply elem_of_cons in Hin as [Hin|Hin]; [discriminate Hin|]);
        by apply elem_of_nil in Hin ].
  - rewrite (stageFiles_rendering _ _ _ _ _ Hgit).
    rewrite (proj2 (proj2 (run_projections _ _ _))).
    split; [|by intros [text [= ]]]. intros Hin. exfalso.
    apply elem_of_cons in Hin as [Hin|Hin]; [discriminate Hin|].
    apply elem_of_cons in Hin as [Hin|Hin]; [discriminate Hin|].
    apply elem_of_app in Hin as [Hin|Hin].
    + apply elem_of_lookup_imap in Hin as (i & m & Hline & _).
      injection Hline as Hline. unfold matchLine in Hline.
      destruct (itoa_first_digit (Z.of_nat i + 1)) as (c & rest & Hc & Hdigit).
      rewrite Hc in Hline. injection Hline as <- _.
      vm_compute in Hdigit. lia.
    + destruct (length _ =? 20)%nat; [|by apply elem_of_nil in Hin].
      apply elem_of_cons in Hin as [Hin|Hin]; [discriminate Hin|].
      by apply elem_of_nil in Hin.
Qed.

(** X10. When a dispatch panics.  It panics exactly when the answer to
    the first or to the second history search holds a commit whose hash
    is shorter than 8 bytes; in the first case no further search is
    started, in the second the file search is not. *)
Theorem performSearch_panics g query w r1 w1 r2 w2 :
  git_output (repoPath g) (commitHistoryArgs query 1) w = (r1, w1) →
  git_output (repoPath g) (commitHistoryArgs query 10) w1 = (r2, w2) →
  (result (performSearch g query w) = Panicked
   ↔ renderable r1 = false ∨ renderable r2 = false) ∧
  (renderable r1 = false →
   execs (events (performSearch g query w)) = [commitHistoryArgs query 1]) ∧
  (renderable r1 = true → renderable r2 = false →
   execs (events (performSearch g query w))
   = [commitHistoryArgs query 1; commitHistoryArgs query 10]).
Proof.
  intros H1 H2.
  pose proof (stageLastCommit_result _ _ _ _ _ H1) as Hres1.
  pose proof (stageCommitMessages_result _ _ _ _ _ H2) as Hres2.
  destruct (stageLastCommit_run _ _ _ _ _ H1) as (rep1 & _ & Hw1 & _).
  destruct (stageCommitMessages_run _ _ _ _ _ H2) as (rep2 & _ & Hw2 & _).
  destruct (git_output (repoPath g) (filesArgs query) w2) as [r3 w3] eqn:H3.
  destruct (stageFiles_run _ _ _ _ _ H3)
    as (ms & err & rep3 & _ & _ & _ & Hres3 & _).
  unfold performSearch.
  rewrite (bind_Returned _ _ w tt w [Stdout (searchBanner query)])
    by reflexivity.
  rewrite (proj1 (run_projections _ _ _)),
    (proj2 (proj2 (run_projections _ _ _))).
  rewrite bind_result, bind_events, Hres1, Hw1.
  cbn [app]. rewrite execs_Stdout, execs_app, stageLastCommit_execs.
  destruct (renderable r1).
  - rewrite bind_result, bind_events, Hres2, Hw2.
    rewrite execs_app, stageCommitMessages_execs.
    destruct (renderable r2).
    + rewrite bind_result, Hres3. split; [|done].
      split; [done | by intros [|]].
    + split; [|done]. split; [by right | done].
  - split; [|done]. split; [by left | done].
Qed.

(** X11. The last-commit display when the details cannot be had: on a
    backend error, or on output with fewer than five fields, it prints
    its title, logs the error and returns; nothing of a commit is
    printed and there is no panic. *)
Theorem displayLastCommit_failure g w output err w' :
  git_output (repoPath g) lastCommitDetailsArgs w = ((output, err), w') →
  err ≠ None ∨ length (Go.Split (Go.TrimSpace output) "|") < 5 →
  displayLastCommit g w
  = (Returned tt, w',
     [Stdout ("=== Last Commit Information ===" +:+ Go.nl);
      Exec (repoPath g) lastCommitDetailsArgs;
      Log ("Error getting commit details: "
           +:+ match err with
               | Some e => "failed to get commit details: " +:+ Error e
               | None => "unexpected git log output format"
               end)]).
Proof.
  intros Hgit Hbad.
  destruct err as [e|].
  - unfold displayLastCommit, getLastCommitDetails, bind, Output, Println, emit.
    by rewrite Hgit.
  - destruct Hbad as [|Hshort]; [done|].
    pose proof (getLastCommitDetails_run _ _ _ _ Hgit) as Hrun.
    cbv zeta in Hrun.
    destruct (Nat.ltb_spec (length (Go.Split (Go.TrimSpace output) "|")) 5);
      [|lia].
    unfold displayLastCommit.
    rewrite (bind_Returned _ _ w tt w
               [Stdout ("=== Last Commit Information ===" +:+ Go.nl)])
      by reflexivity.
    by rewrite (bind_Returned _ _ _ _ _ _ Hrun).
Qed.

Lemma detailsOfParts_fields (parts : list string) :
  detailsOfParts parts !!! "author" = parts !!! 1%nat ∧
  detailsOfParts parts !!! "email" = parts !!! 2%nat ∧
  detailsOfParts parts !!! "date" = parts !!! 3%nat ∧
  detailsOfParts parts !!! "subject" = parts !!! 4%nat.
Proof.
  unfold detailsOfParts.
  destruct (5 <? length parts)%nat;
    repeat split;
    repeat (rewrite lookup_total_insert_ne by done);
    by rewrite lookup_total_insert_eq.
Qed.

(** X12. The last-commit display on well-formed details whose hash has
    at least 8 bytes: the title, then the short hash, the author with
    the email, the date and the subject, each on its line and taken from
    the fields in that order; the body line is printed only when there
    is a sixth field and it is not empty; a blank line ends it. *)
Theorem displayLastCommit_output g w output w' :
  git_output (repoPath g) lastCommitDetailsArgs w = ((output, None), w') →
  let parts := Go.Split (Go.TrimSpace output) "|" in
  let body := if (5 <? length parts)%nat then parts !!! 5%nat else "" in
  5 ≤ length parts →
  8 ≤ Go.len (parts !!! 0%nat) →
  displayLastCommit g w
  = (Returned tt, w',
     [Stdout ("=== Last Commit Information ===" +:+ Go.nl);
      Exec (repoPath g) lastCommitDetailsArgs;
      Stdout ("Hash:    " +:+ String.substring 0 8 (parts !!! 0%nat) +:+ Go.nl);
      Stdout ("Author:  " +:+ parts !!! 1%nat +:+ " <" +:+ parts !!! 2%nat
              +:+ ">" +:+ Go.nl);
      Stdout ("Date:    " +:+ parts !!! 3%nat +:+ Go.nl);
      Stdout ("Subject: " +:+ parts !!! 4%nat +:+ Go.nl)]
     ++ (if String.eqb body "" then []
         else [Stdout ("Body:    " +:+ body +:+ Go.nl)])
     ++ [Stdout Go.nl]).
Proof.
  intros Hgit parts body Hparts Hhash.
  pose proof (getLastCommitDetails_run _ _ _ _ Hgit) as Hrun.
  cbv zeta in Hrun. fold parts in Hrun.
  destruct (Nat.ltb_spec (length parts) 5) as [|_]; [lia|].
  unfold displayLastCommit.
  rewrite (bind_Returned _ _ w tt w
             [Stdout ("=== Last Commit Information ===" +:+ Go.nl)])
    by reflexivity.
  rewrite (bind_Returned _ _ _ _ _ _ Hrun).
  rewrite !(proj1 (run_projections _ _ _)),
    !(proj1 (proj2 (run_projections _ _ _))),
    !(proj2 (proj2 (run_projections _ _ _))).
  cbv beta iota.
  destruct (detailsOfParts_fields parts) as (-> & -> & -> & ->).
  rewrite detailsOfParts_hash, detailsOfParts_body, (sliceTo_Some _ _ Hhash).
  fold body. unfold bind, orPanic, ret, Print, Println, emit, result, world,
    events; cbn [fst snd app].
  by destruct (String.eqb body "").
Qed.

Lemma specDispatches_queries (stdin : list string) (query : string) :
  query ∈ specDispatches stdin →
  ∃ text, text ∈ stdin ∧ query = Go.TrimSpace text ∧
    query ≠ "" ∧ isExitToken query = false.
Proof.
  induction stdin as [|text stdin IH]; cbn [specDispatches].
  - by intros ?%elem_of_nil.
  - cbv zeta. rewrite <- isExitToken_spec.
    destruct (isExitToken (Go.TrimSpace text)) eqn:Htoken.
    + by intros ?%elem_of_nil.
    + destruct (decide (Go.TrimSpace text = "")) as [Hblank|Hquery].
      * rewrite bool_decide_eq_true_2 by done. intros Hin.
        destruct (IH Hin) as (t & Ht & Hrest). exists t. split; [by right|done].
      * rewrite bool_decide_eq_false_2 by done.
        intros [->|Hin]%elem_of_cons.
        -- exists text. split; [by left|done].
        -- destruct (IH Hin) as (t & Ht & Hrest).
           exists t. split; [by right|done].
Qed.

(** X13. What a session searches for.  Every search the session loop
    starts is for the trimmed text of one of the input lines, and that
    query is never empty, never one of the exit tokens, and has no ASCII
    white space at either end. *)
Theorem interactiveSearch_queries g (stdin : list string) w (banner : string) :
  banner ∈ banners (events (interactiveSearch g stdin w)) →
  ∃ text,
    text ∈ stdin ∧
    banner = searchBanner (Go.TrimSpace text) ∧
    Go.TrimSpace text ≠ "" ∧
    isExitToken (Go.TrimSpace text) = false ∧
    asciiTrimmed (Go.TrimSpace text) = true.
Proof.
  intros Hin.
  destruct (interactiveSearch_dispatches g stdin w) as [[rest Hprefix] _].
  assert (banner ∈ searchBanner <$> specDispatches stdin) as Hbanner
    by (rewrite Hprefix; apply elem_of_app; by left).
  apply list_elem_of_fmap in Hbanner as (query & -> & Hquery).
  destruct (specDispatches_queries _ _ Hquery) as (text & Htext & -> & Hne & Hexit).
  exists text. repeat split; try done. apply TrimSpace_asciiTrimmed.
Qed.

(** X14. Nothing after an exit token matters: the session on an input
    is the session on that input cut after its first exit line. *)
Theorem interactiveSearch_stops_at_exit g (before : list string)
    (token : string) (after : list string) w :
  isExitToken (Go.TrimSpace token) = true →
  interactiveSearch g (before ++ token :: after) w
  = interactiveSearch g (before ++ [token]) w.
Proof.
  intros Htoken. revert w.
  induction before as [|text before IH]; intros w;
    rewrite !interactiveSearch_unfold;
    rewrite !(bind_Returned _ _ w tt w [Stdout prompt]) by reflexivity.
  - cbn [app]. cbv zeta. by rewrite Htoken.
  - cbn [app]. cbv zeta.
    destruct (isExitToken (Go.TrimSpace text)); [done|].
    destruct (String.eqb (Go.TrimSpace text) ""); [by rewrite IH|].
    unfold bind.
    destruct (performSearch g (Go.TrimSpace text) w) as [[[[]|] w1] e1];
      [|done].
    by rewrite IH.
Qed.

End MoreDispatch.

(** ** Beyond the stated claims: the working directory and [main] *)

Section WorkingDirectory.
Context {W : Type} `{!Backend W}.
Implicit Types (g : GitSearchTool) (w : W) (query : string).

Lemma inDir_plain (dir : string) (evs : list event) :
  Forall plainEvent evs → Forall (inDir dir) evs.
Proof.
  intros Hplain. eapply Forall_impl; [exact Hplain|].
  intros e [He _]. by destruct e.
Qed.

Lemma inDir_no_execs (dir : string) (evs : list event) :
  execs evs = [] → Forall (inDir dir) evs.
Proof.
  induction evs as [|e evs IH]; [done|].
  destruct e as [d args|text|text]; [done|..]; intros Hexecs;
    (constructor; [done | by apply IH]).
Qed.

Lemma inDir_bind {A B} (dir : string) (m : M W A) (k : A → M W B) w :
  Forall (inDir dir) (events (m w)) →
  (∀ a w1, Forall (inDir dir) (events (k a w1))) →
  Forall (inDir dir) (events (bind m k w)).
Proof.
  intros Hm Hk. rewrite bind_events. apply Forall_app. split; [done|].
  destruct (result (m w)); [apply Hk | done].
Qed.

Lemma stageLastCommit_inDir g query w :
  Forall (inDir (repoPath g)) (events (stageLastCommit g query w)).
Proof.
  destruct (git_output (repoPath g) (commitHistoryArgs query 1) w)
    as [answer w'] eqn:Hgit.
  destruct (stageLastCommit_run _ _ _ _ _ Hgit) as (report & -> & _ & Hplain & _).
  repeat constructor. by apply inDir_plain.
Qed.

Lemma stageCommitMessages_inDir g query w :
  Forall (inDir (repoPath g)) (events (stageCommitMessages g query w)).
Proof.
  destruct (git_output (repoPath g) (commitHistoryArgs query 10) w)
    as [answer w'] eqn:Hgit.
  destruct (stageCommitMessages_run _ _ _ _ _ Hgit)
    as (report & -> & _ & Hplain & _).
  repeat constructor. by apply inDir_plain.
Qed.

Lemma stageFiles_inDir g query w :
  Forall (inDir (repoPath g)) (events (stageFiles g query w)).
Proof.
  destruct (git_output (repoPath g) (filesArgs query) w)
    as [answer w'] eqn:Hgit.
  destruct (stageFiles_run _ _ _ _ _ Hgit)
    as (ms & err & report & _ & -> & _ & _ & Hexecs & _).
  repeat constructor. by apply inDir_no_execs.
Qed.

Lemma performSearch_inDir g query w :
  Forall (inDir (repoPath g)) (events (performSearch g query w)).
Proof.
  unfold performSearch.
  apply inDir_bind; [by repeat constructor|]. intros _ w1.
  apply inDir_bind; [apply stageLastCommit_inDir|]. intros _ w2.
  apply inDir_bind; [apply stageCommitMessages_inDir|]. intros _ w3.
  apply inDir_bind; [apply stageFiles_inDir|]. intros _ w4.
  by repeat constructor.
Qed.

Lemma interactiveSearch_inDir g (stdin : list string) w :
  Forall (inDir (repoPath g)) (events (interactiveSearch g stdin w)).
Proof.
  revert w. induction stdin as [|text stdin IH]; intros w;
    rewrite interactiveSearch_unfold;
    (apply inDir_bind; [by repeat constructor|]); intros _ w1.
  - constructor.
  - cbv zeta. destruct (isExitToken (Go.TrimSpace text)); [constructor|].
    destruct (String.eqb (Go.TrimSpace text) ""); [apply IH|].
    apply inDir_bind; [apply performSearch_inDir|]. intros. apply IH.
Qed.

Lemma getLastCommitDetails_any g w :
  ∃ r w',
    getLastCommitDetails g w
    = (Returned r, w', [Exec (repoPath g) lastCommitDetailsArgs]).
Proof.
  destruct (git_output (repoPath g) lastCommitDetailsArgs w)
    as [[output err] w'] eqn:Hgit.
  destruct err as [e|].
  - unfold getLastCommitDetails, bind, Output. rewrite Hgit. by eexists _, _.
  - rewrite (getLastCommitDetails_run _ _ _ _ Hgit). by eexists _, _.
Qed.

Lemma displayLastCommit_inDir g w :
  Forall (inDir (repoPath g)) (events (displayLastCommit g w)).
Proof.
  unfold displayLastCommit.
  apply inDir_bind; [by repeat constructor|]. intros _ w1.
  destruct (getLastCommitDetails_any g w1) as (r & w2 & Hrun).
  apply inDir_bind; [rewrite Hrun; by repeat constructor|].
  intros [details [e|]] w3; [by repeat constructor|].
  apply inDir_bind.
  { destruct (Go.sliceTo (details !!! "hash") 8); by repeat constructor. }
  intros short w4.
  repeat (apply inDir_bind; [by repeat constructor|]; intros _ ?).
  apply inDir_bind; [|by intros; repeat constructor].
  destruct (String.eqb (details !!! "body") ""); by repeat constructor.
Qed.

(** X15. Every [git] process that the display, a search or a session
    starts runs in the repository path of the tool, whatever the backend
    answers and also when the run panics. *)
Theorem git_runs_in_repoPath g query (stdin : list string) w :
  Forall (inDir (repoPath g)) (events (displayLastCommit g w)) ∧
  Forall (inDir (repoPath g)) (events (performSearch g query w)) ∧
  Forall (inDir (repoPath g)) (events (interactiveSearch g stdin w)).
Proof.
  split; [apply displayLastCommit_inDir|].
  split; [apply performSearch_inDir | apply interactiveSearch_inDir].
Qed.

End WorkingDirectory.

Section MainFacts.
Context {W : Type} `{!Backend W, !OS W}.
Implicit Types (g : GitSearchTool) (w : W) (path query : string).

Lemma Abs_run path w r w1 :
  filepath_Abs path w = (r, w1) → Abs path w = (Returned r, w1, []).
Proof. intros Habs. unfold Abs. by rewrite Habs. Qed.

Lemma Stat_run path w st w1 :
  os_Stat path w = (st, w1) → Stat path w = (Returned st, w1, []).
Proof. intros Hstat. unfold Stat. by rewrite Hstat. Qed.

Lemma isGitRepo_run g w st w1 :
  os_Stat (filepath_Join (repoPath g) ".git") w = (st, w1) →
  isGitRepo g w = (Returned (negb (IsNotExist st)), w1, []).
Proof.
  intros Hstat. unfold isGitRepo.
  rewrite (bind_Returned _ _ _ _ _ _ (Stat_run _ _ _ _ Hstat)).
  by destruct st.
Qed.

(** X16. [isGitRepo] answers no only when [os.Stat] of the [.git] entry
    under the repository path reports that it does not exist; on any
    other outcome, a failure of [Stat] included, it answers yes.  It
    prints nothing and starts no process. *)
Theorem isGitRepo_answer g w st w1 :
  os_Stat (filepath_Join (repoPath g) ".git") w = (st, w1) →
  events (isGitRepo g w) = [] ∧
  world (isGitRepo g w) = w1 ∧
  (result (isGitRepo g w) = Returned false ↔ st = StatNotExist) ∧
  (result (isGitRepo g w) = Returned true ↔ st ≠ StatNotExist).
Proof.
  intros Hstat. rewrite (isGitRepo_run _ _ _ _ Hstat).
  split; [done|]. split; [done|].
  rewrite (proj1 (run_projections _ _ _)). by destruct st.
Qed.

(** The run of [main] once its three checks have passed. *)
Lemma main_started path query (stdin : list string) w absPath w1 st w2 st' w3 :
  filepath_Abs path w = ((absPath, None), w1) →
  os_Stat absPath w1 = (st, w2) → st ≠ StatNotExist →
  os_Stat (filepath_Join absPath ".git") w2 = (st', w3) → st' ≠ StatNotExist →
  main path query false stdin w
  = (Print ("Git repository: " +:+ absPath +:+ Go.nl) ;;
     displayLastCommit (NewGitSearchTool absPath) ;;
     (if negb (String.eqb query "")
      then performSearch (NewGitSearchTool absPath) query
      else Println "=== Interactive Search Mode ===" ;;
           Println "You can search for text in commit messages and file contents." ;;
           interactiveSearch (NewGitSearchTool absPath) stdin) ;;
     Println "Goodbye!" ;;
     ret 0%Z)%go w3.
Proof.
  intros Habs Hdir Hst Hgit Hst'. unfold main.
  rewrite (bind_Returned _ _ _ _ _ _ (Abs_run _ _ _ _ Habs)).
  rewrite (bind_Returned _ _ _ _ _ _ (Stat_run _ _ _ _ Hdir)).
  assert (IsNotExist st = false) as -> by by destruct st.
  rewrite (bind_Returned _ _ _ _ _ _
             (isGitRepo_run (NewGitSearchTool absPath) _ _ _ Hgit)).
  assert (IsNotExist st' = false) as -> by by destruct st'.
  cbn [negb app]. by rewrite <- !run_eta.
Qed.

(** X17. [main] ends before any search when help is asked for or a
    startup check fails.  With [-help] it prints the usage text and
    exits with status 0 without looking at the path.  When the path
    cannot be resolved, when the directory does not exist, or when it
    has no [.git] entry, it logs one message and exits with status 1:
    nothing is printed, no [git] process is started, and neither the
    query nor the input is used. *)
Theorem main_without_search path query (stdin : list string) w :
  main path query true stdin w
  = (Returned 0%Z, w, (λ line, Stdout (line +:+ Go.nl)) <$> usage) ∧
  (∀ p e w1,
     filepath_Abs path w = ((p, Some e), w1) →
     main path query false stdin w
     = (Returned 1%Z, w1, [Log ("Error resolving path: " +:+ Error e)])) ∧
  (∀ absPath w1 w2,
     filepath_Abs path w = ((absPath, None), w1) →
     os_Stat absPath w1 = (StatNotExist, w2) →
     main path query false stdin w
     = (Returned 1%Z, w2, [Log ("Directory does not exist: " +:+ absPath)])) ∧
  (∀ absPath w1 st w2 w3,
     filepath_Abs path w = ((absPath, None), w1) →
     os_Stat absPath w1 = (st, w2) → st ≠ StatNotExist →
     os_Stat (filepath_Join absPath ".git") w2 = (StatNotExist, w3) →
     main path query false stdin w
     = (Returned 1%Z, w3, [Log ("Not a git repository: " +:+ absPath)])).
Proof.
  split; [done|]. split; [|split].
  - intros p e w1 Habs. unfold main.
    by rewrite (bind_Returned _ _ _ _ _ _ (Abs_run _ _ _ _ Habs)).
  - intros absPath w1 w2 Habs Hdir. unfold main.
    rewrite (bind_Returned _ _ _ _ _ _ (Abs_run _ _ _ _ Habs)).
    by rewrite (bind_Returned _ _ _ _ _ _ (Stat_run _ _ _ _ Hdir)).
  - intros absPath w1 st w2 w3 Habs Hdir Hst Hgit. unfold main.
    rewrite (bind_Returned _ _ _ _ _ _ (Abs_run _ _ _ _ Habs)).
    rewrite (bind_Returned _ _ _ _ _ _ (Stat_run _ _ _ _ Hdir)).
    assert (IsNotExist st = false) as -> by by destruct st.
    by rewrite (bind_Returned _ _ _ _ _ _
                  (isGitRepo_run (NewGitSearchTool absPath) _ _ _ Hgit)).
Qed.

Lemma Forall_events_bind {A B} (P : event → Prop) (m : M W A) (k : A → M W B) w :
  Forall P (events (m w)) →
  (∀ a w1, Forall P (events (k a w1))) →
  Forall P (events (bind m k w)).
Proof.
  intros Hm Hk. rewrite bind_events. apply Forall_app. split; [done|].
  destruct (result (m w)); [apply Hk | done].
Qed.

Lemma banners_none (evs : list event) :
  Forall (λ e, isBanner e = false) evs → banners evs = [].
Proof.
  induction 1 as [|e evs He _ IH]; [done|].
  unfold banners. cbn [omap list_omap]. fold (banners evs).
  rewrite He, IH. by destruct e.
Qed.

Lemma displayLastCommit_banners g w : banners (events (displayLastCommit g w)) = [].
Proof.
  apply banners_none. unfold displayLastCommit.
  apply Forall_events_bind; [by repeat constructor|]. intros _ w1.
  destruct (getLastCommitDetails_any g w1) as (r & w2 & Hrun).
  apply Forall_events_bind; [rewrite Hrun; by repeat constructor|].
  intros [details [e|]] w3; [by repeat constructor|].
  apply Forall_events_bind.
  { destruct (Go.sliceTo (details !!! "hash") 8); by repeat constructor. }
  intros short w4.
  repeat (apply Forall_events_bind; [by repeat constructor|]; intros _ ?).
  apply Forall_events_bind; [|by intros; repeat constructor].
  destruct (String.eqb (details !!! "body") ""); by repeat constructor.
Qed.

Lemma displayLastCommit_first_exec g w :
  ∃ rest,
    events (displayLastCommit g w)
    = Stdout ("=== Last Commit Information ===" +:+ Go.nl)
      :: Exec (repoPath g) lastCommitDetailsArgs :: rest.
Proof.
  unfold displayLastCommit.
  rewrite (bind_Returned _ _ w tt w
             [Stdout ("=== Last Commit Information ===" +:+ Go.nl)])
    by reflexivity.
  destruct (getLastCommitDetails_any g w) as (r & w2 & Hrun).
  rewrite (bind_Returned _ _ _ _ _ _ Hrun).
  rewrite !(proj2 (proj2 (run_projections _ _ _))). by eexists.
Qed.

(** X18. A run of [main] whose startup checks pass.  Its first [git]
    process is the detail fetch and every [git] process runs in the
    resolved path.  It never exits with status 1: when it returns, the
    status is 0 and the last thing printed is the farewell line. *)
Theorem main_completes path query (stdin : list string) w absPath w1 st w2 st' w3 :
  filepath_Abs path w = ((absPath, None), w1) →
  os_Stat absPath w1 = (st, w2) → st ≠ StatNotExist →
  os_Stat (filepath_Join absPath ".git") w2 = (st', w3) → st' ≠ StatNotExist →
  (∃ rest,
     execs (events (main path query false stdin w))
     = lastCommitDetailsArgs :: rest) ∧
  Forall (inDir absPath) (events (main path query false stdin w)) ∧
  (∀ status,
     result (main path query false stdin w) = Returned status →
     status = 0%Z ∧
     last (events (main path query false stdin w))
     = Some (Stdout ("Goodbye!" +:+ Go.nl))).
Proof.
  intros Habs Hdir Hst Hgit Hst'.
  rewrite (main_started _ _ _ _ _ _ _ _ _ _ Habs Hdir Hst Hgit Hst').
  set (g := NewGitSearchTool absPath).
  set (search := if negb (String.eqb query "") then performSearch g query
                 else (Println "=== Interactive Search Mode ===" ;;
                       Println "You can search for text in commit messages and file contents." ;;
                       interactiveSearch g stdin)%go).
  rewrite (bind_Returned _ _ w3 tt w3
             [Stdout ("Git repository: " +:+ absPath +:+ Go.nl)])
    by reflexivity.
  rewrite (proj1 (run_projections _ _ _)),
    (proj2 (proj2 (run_projections _ _ _))).
  split; [|split].
  - rewrite bind_events.
    destruct (displayLastCommit_first_exec g w3) as [rest ->].
    cbn [app]. rewrite execs_Stdout, execs_Stdout, execs_Exec. by eexists.
  - cbn [app]. constructor; [done|].
    apply (Forall_events_bind (inDir absPath));
      [apply (displayLastCommit_inDir g)|]. intros _ w4.
    apply (Forall_events_bind (inDir absPath));
      [|by intros; repeat constructor].
    unfold search. destruct (negb (String.eqb query ""));
      [apply (performSearch_inDir g)|].
    repeat (apply (Forall_events_bind (inDir absPath));
            [by repeat constructor|]; intros _ ?).
    apply (interactiveSearch_inDir g).
  - intros status. rewrite bind_result, bind_events.
    destruct (result (displayLastCommit g w3)) as [[]|]; [|done].
    cbv beta. rewrite bind_result, bind_events.
    destruct (result (search _)) as [[]|]; [|done].
    cbv beta.
    rewrite (bind_Returned _ _ _ tt _ [Stdout ("Goodbye!" +:+ Go.nl)])
      by reflexivity.
    rewrite (proj1 (run_projections _ _ _)),
      (proj2 (proj2 (run_projections _ _ _))).
    intros [= <-]. split; [done|].
    cbn [app]. rewrite !app_comm_cons, !app_assoc. apply last_snoc.
Qed.

Lemma interactive_mode_run g (stdin : list string) w :
  (Println "=== Interactive Search Mode ===" ;;
   Println "You can search for text in commit messages and file contents." ;;
   interactiveSearch g stdin)%go w
  = (result (interactiveSearch g stdin w),
     world (interactiveSearch g stdin w),
     Stdout ("=== Interactive Search Mode ===" +:+ Go.nl)
     :: Stdout ("You can search for text in commit messages and file contents."
                +:+ Go.nl)
     :: events (interactiveSearch g stdin w)).
Proof.
  rewrite (bind_Returned _ _ w tt w
             [Stdout ("=== Interactive Search Mode ===" +:+ Go.nl)])
    by reflexivity.
  rewrite (bind_Returned _ _ w tt w
             [Stdout ("You can search for text in commit messages and file contents."
                      +:+ Go.nl)])
    by reflexivity.
  by rewrite !(proj1 (run_projections _ _ _)),
    !(proj1 (proj2 (run_projections _ _ _))),
    !(proj2 (proj2 (run_projections _ _ _))).
Qed.

(** X19. The searches of a run of [main] whose startup checks pass.
    With a query, the one search is for the query as given, not trimmed,
    and the input is not read; without one, the searches are those of
    the session on the input.  The searches started are always a prefix
    of these (a panic cuts the run short) and all of them when [main]
    returns. *)
Theorem main_searches path query (stdin : list string) w absPath w1 st w2 st' w3 :
  filepath_Abs path w = ((absPath, None), w1) →
  os_Stat absPath w1 = (st, w2) → st ≠ StatNotExist →
  os_Stat (filepath_Join absPath ".git") w2 = (st', w3) → st' ≠ StatNotExist →
  let planned :=
    if String.eqb query "" then specDispatches stdin else [query] in
  banners (events (main path query false stdin w))
    `prefix_of` (searchBanner <$> planned) ∧
  (∀ status,
     result (main path query false stdin w) = Returned status →
     banners (events (main path query false stdin w))
     = searchBanner <$> planned) ∧
  (query ≠ "" →
   main path query false stdin w = main path query false [] w).
Proof.
  intros Habs Hdir Hst Hgit Hst' planned.
  split; [|split];
    [| |intros Hquery;
        rewrite !(main_started _ _ _ _ _ _ _ _ _ _ Habs Hdir Hst Hgit Hst');
        by destruct (String.eqb_spec query "")].
  all: rewrite (main_started _ _ _ _ _ _ _ _ _ _ Habs Hdir Hst Hgit Hst').
  all: set (g := NewGitSearchTool absPath).
  all: set (search :=
         if negb (String.eqb query "") then performSearch g query
         else (Println "=== Interactive Search Mode ===" ;;
               Println "You can search for text in commit messages and file contents." ;;
               interactiveSearch g stdin)%go).
  all: assert (∀ w4,
         banners (events (search w4)) `prefix_of` (searchBanner <$> planned) ∧
         (result (search w4) = Returned tt →
          banners (events (search w4)) = searchBanner <$> planned)) as Hsearch
    by (intros w4; unfold search, planned;
        destruct (String.eqb query ""); cbn [negb];
        [ rewrite (interactive_mode_run g stdin w4);
          rewrite (proj1 (run_projections _ _ _)),
            (proj2 (proj2 (run_projections _ _ _)));
          apply interactiveSearch_dispatches
        | rewrite performSearch_banners; split; [|done];
          apply prefix_cons, prefix_nil ]).
  all: rewrite (bind_Returned _ _ w3 tt w3
                  [Stdout ("Git repository: " +:+ absPath +:+ Go.nl)])
         by reflexivity.
  all: rewrite ?(proj1 (run_projections _ _ _)),
         (proj2 (proj2 (run_projections _ _ _))).
  all: rewrite banners_app.
  all: change (banners [Stdout ("Git repository: " +:+ absPath +:+ Go.nl)])
         with (@nil string).
  all: cbn [app]; rewrite ?bind_result, bind_events, banners_app,
         displayLastCommit_banners; cbn [app].
  all: destruct (result (displayLastCommit g w3)) as [[]|];
         [|first [apply prefix_nil | done]].
  all: cbv beta; rewrite ?bind_result, bind_events, banners_app.
  all: destruct (Hsearch (world (displayLastCommit g w3))) as [Hprefix Hall].
  all: destruct (result (search _)) as [[]|];
         [|first [by rewrite app_nil_r | done]].
  all: assert (∀ w5, banners (events ((Println (W:=W) "Goodbye!" ;;
                                     ret 0%Z)%go w5)) = []) as Hbye by done.
  - cbv beta. by rewrite Hbye, app_nil_r.
  - cbv beta. intros status _. by rewrite Hbye, app_nil_r, (Hall eq_refl).
Qed.

End MainFacts.

(** ** Concrete runs for the further properties *)

Lemma searchInFiles_limit_witness :
  result (searchInFiles tool "x" 2
            ([(Go.Join ["a.go:1:x"; "b.go:2:x"; "c.go:3:x"] "010", None)] : Script))
  = Returned (["a.go:1:x"; "b.go:2:x"], None).
Proof.
  destruct (searchInFiles_limit tool "x" 2
              ([(Go.Join ["a.go:1:x"; "b.go:2:x"; "c.go:3:x"] "010", None)]
               : Script)
              (Go.Join ["a.go:1:x"; "b.go:2:x"; "c.go:3:x"] "010") []
              eq_refl ltac:(lia))
    as (fileMatches & Hrun & Hkept & _).
  rewrite Hrun, Hkept. reflexivity.
Defined.

Lemma searchInFiles_negative_limit_witness :
  searchInFiles tool "x" (-1) ([("a.go:1:x", None)] : Script)
  = (Panicked, [], [Exec "/repo" (filesArgs "x")]).
Proof.
  apply (searchInFiles_negative_limit tool "x" (-1)
           ([("a.go:1:x", None)] : Script) "a.go:1:x" []).
  - reflexivity.
  - lia.
Defined.

Lemma searchInCommitHistory_roundtrip_witness :
  result (searchInCommitHistory tool "fix" 1
            ([(Go.Join (lineOfRow <$> sampleRows) "010", None)] : Script))
  = Returned ([mkCommit "0123456789abcdef" "dev" "2024-05-01" "fix typo";
               mkCommit "64fc5dd7c0ffee00" "ops" "2024-05-02" "fix build"],
              None).
Proof.
  apply (searchInCommitHistory_roundtrip tool "fix" 1
           ([(Go.Join (lineOfRow <$> sampleRows) "010", None)] : Script)
           (Go.Join (lineOfRow <$> sampleRows) "010") [] sampleRows).
  - reflexivity.
  - repeat constructor.
  - reflexivity.
Defined.

Lemma searchInCommitHistory_extra_fields_witness :
  result (searchInCommitHistory tool "fix" 10
            ([("0123456789abcdef|dev|2024-05-01|fix a|b", None)] : Script))
  = Returned ([mkCommit "0123456789abcdef" "dev" "2024-05-01" "fix a"], None).
Proof.
  apply (searchInCommitHistory_extra_fields tool "fix" 10
           ([("0123456789abcdef|dev|2024-05-01|fix a|b", None)] : Script)
           "0123456789abcdef|dev|2024-05-01|fix a|b" []
           "0123456789abcdef" "dev" "2024-05-01" "fix a" "b").
  - reflexivity.
  - repeat constructor.
  - reflexivity.
  - reflexivity.
Defined.

Lemma record_keys_witness :
  dom (mkCommit "0123456789abcdef" "dev" "2024-05-01" "fix typo")
  = ({["hash"; "author"; "date"; "subject"]} : gset string)
  ∧ mkCommit "0123456789abcdef" "dev" "2024-05-01" "fix typo" !!! "email" = "".
Proof.
  destruct (proj1 (record_keys tool "fix" 10 ([(goodLine, None)] : Script))
              [mkCommit "0123456789abcdef" "dev" "2024-05-01" "fix typo"]
              (mkCommit "0123456789abcdef" "dev" "2024-05-01" "fix typo"))
    as (Hdom & Hemail & _).
  - reflexivity.
  - by left.
  - exact (conj Hdom Hemail).
Defined.

Lemma getLastCommitMessage_trimmed_witness :
  result (getLastCommitMessage tool
            ([("  fix typo " +:+ Go.nl, None)] : Script))
  = Returned ("fix typo", None).
Proof.
  destruct (getLastCommitMessage_trimmed tool
              ([("  fix typo " +:+ Go.nl, None)] : Script)
              ("  fix typo " +:+ Go.nl) None [] eq_refl)
    as (message & err' & Hrun & _ & _ & Hok).
  destruct (Hok eq_refl) as [-> ->]. rewrite Hrun. reflexivity.
Defined.

Lemma stageCommitMessages_rendering_witness :
  stageCommitMessages tool "fix" ([(goodLine, None)] : Script)
  = (Returned tt, [],
     [Stdout (commitsHeader +:+ Go.nl);
      Exec "/repo" (commitHistoryArgs "fix" 10);
      Stdout ("1. [01234567] fix typo - dev (2024-05-01)" +:+ Go.nl)]).
Proof.
  rewrite (stageCommitMessages_rendering tool "fix"
             ([(goodLine, None)] : Script) goodLine [] eq_refl eq_refl).
  reflexivity.
Defined.

Lemma stageLastCommit_rendering_witness :
  stageLastCommit tool "fix"
    ([(goodLine +:+ Go.nl +:+ pinnedLine, None)] : Script)
  = (Returned tt, [],
     [Stdout (commitsHeader +:+ Go.nl);
      Exec "/repo" (commitHistoryArgs "fix" 1);
      Stdout ("2. [64fc5dd7] fix typo - dev (2024-05-01)" +:+ Go.nl)]).
Proof.
  rewrite (stageLastCommit_rendering tool "fix"
             ([(goodLine +:+ Go.nl +:+ pinnedLine, None)] : Script)
             (goodLine +:+ Go.nl +:+ pinnedLine) [] eq_refl eq_refl).
  reflexivity.
Defined.

Lemma stageFiles_rendering_witness :
  stageFiles tool "x" ([("a.go:1:x", None)] : Script)
  = (Returned tt, [],
     [Stdout (filesHeader +:+ Go.nl);
      Exec "/repo" (filesArgs "x");
      Stdout ("1. a.go:1:x" +:+ Go.nl)]).
Proof.
  rewrite (stageFiles_rendering tool "x"
             ([("a.go:1:x", None)] : Script) "a.go:1:x" [] eq_refl).
  reflexivity.
Defined.

Lemma stageFiles_no_match_message_witness :
  Stdout ("No matches found in tracked files." +:+ Go.nl)
  ∈ events (stageFiles tool "x"
              ([("", Some (ExitError 1 "exit status 1"))] : Script)).
Proof.
  apply (stageFiles_no_match_message tool "x"
           ([("", Some (ExitError 1 "exit status 1"))] : Script)
           ("", Some (ExitError 1 "exit status 1")) []).
  - reflexivity.
  - by eexists.
Defined.

Lemma performSearch_panics_witness :
  result (performSearch tool "fix"
            ([(goodLine, None); (shortHashLine, None)] : Script))
  = Panicked ∧
  execs (events (performSearch tool "fix"
                   ([(goodLine, None); (shortHashLine, None)] : Script)))
  = [commitHistoryArgs "fix" 1; commitHistoryArgs "fix" 10].
Proof.
  destruct (performSearch_panics tool "fix"
              ([(goodLine, None); (shortHashLine, None)] : Script)
              (goodLine, None) [(shortHashLine, None)]
              (shortHashLine, None) [] eq_refl eq_refl)
    as (Hpanics & _ & Hcalls).
  split.
  - apply Hpanics. right. reflexivity.
  - apply Hcalls; reflexivity.
Defined.

Lemma displayLastCommit_failure_witness :
  displayLastCommit tool ([("abc|dev|fix", None)] : Script)
  = (Returned tt, [],
     [Stdout ("=== Last Commit Information ===" +:+ Go.nl);
      Exec "/repo" lastCommitDetailsArgs;
      Log "Error getting commit details: unexpected git log output format"]).
Proof.
  apply (displayLastCommit_failure tool ([("abc|dev|fix", None)] : Script)
           "abc|dev|fix" None []).
  - reflexivity.
  - right. vm_compute. lia.
Defined.

Lemma displayLastCommit_output_witness :
  displayLastCommit tool ([(detailsLine, None)] : Script)
  = (Returned tt, [],
     [Stdout ("=== Last Commit Information ===" +:+ Go.nl);
      Exec "/repo" lastCommitDetailsArgs;
      Stdout ("Hash:    01234567" +:+ Go.nl);
      Stdout ("Author:  dev <dev@example.org>" +:+ Go.nl);
      Stdout ("Date:    2024-05-01" +:+ Go.nl);
      Stdout ("Subject: fix typo" +:+ Go.nl);
      Stdout ("Body:    first" +:+ Go.nl);
      Stdout Go.nl]).
Proof.
  rewrite (displayLastCommit_output tool ([(detailsLine, None)] : Script)
             detailsLine [] eq_refl
             ltac:(vm_compute; lia) ltac:(vm_compute; lia)).
  reflexivity.
Defined.

Lemma interactiveSearch_queries_witness :
  ∃ text,
    text ∈ [" fix "; "q"] ∧
    searchBanner "fix" = searchBanner (Go.TrimSpace text) ∧
    Go.TrimSpace text ≠ "" ∧
    isExitToken (Go.TrimSpace text) = false ∧
    asciiTrimmed (Go.TrimSpace text) = true.
Proof.
  apply (interactiveSearch_queries tool [" fix "; "q"] ([] : Script)
           (searchBanner "fix")).
  vm_compute. left.
Defined.

Lemma interactiveSearch_stops_at_exit_witness :
  interactiveSearch tool ["fix"; "q"; "later"; "more"] ([] : Script)
  = interactiveSearch tool ["fix"; "q"] ([] : Script).
Proof.
  exact (interactiveSearch_stops_at_exit tool ["fix"] "q" ["later"; "more"]
           ([] : Script) eq_refl).
Defined.

Lemma isGitRepo_answer_witness :
  result (isGitRepo tool lockedMachine) = Returned true ∧
  result (isGitRepo tool bareMachine) = Returned false.
Proof.
  split.
  - apply (proj2 (proj2 (proj2 (isGitRepo_answer tool lockedMachine
                                   StatFailed lockedMachine
                                   ltac:(by vm_compute))))).
    discriminate.
  - apply (proj1 (proj2 (proj2 (isGitRepo_answer tool bareMachine
                                   StatNotExist bareMachine
                                   ltac:(by vm_compute))))).
    reflexivity.
Defined.

Lemma main_without_search_witness :
  main "/repo" "fix" false ["later"] bareMachine
  = (Returned 1%Z, bareMachine, [Log "Not a git repository: /repo"]).
Proof.
  apply (proj2 (proj2 (proj2 (main_without_search "/repo" "fix" ["later"]
                                bareMachine)))
           "/repo" bareMachine StatOk bareMachine bareMachine).
  - by vm_compute.
  - by vm_compute.
  - discriminate.
  - by vm_compute.
Defined.

Lemma main_completes_witness :
  last (events (main "/repo" "fix" false []
                  (repoMachine [(detailsLine, None)])))
  = Some (Stdout ("Goodbye!" +:+ Go.nl)).
Proof.
  destruct (main_completes "/repo" "fix" [] (repoMachine [(detailsLine, None)])
              "/repo" (repoMachine [(detailsLine, None)])
              StatOk (repoMachine [(detailsLine, None)])
              StatOk (repoMachine [(detailsLine, None)]))
    as (_ & _ & Hstatus);
    [by vm_compute | by vm_compute | discriminate | by vm_compute
    | discriminate |].
  destruct (Hstatus 0%Z) as [_ Hlast]; [by vm_compute | exact Hlast].
Defined.

Lemma main_searches_witness :
  banners (events (main "/repo" " fix" false ["later"]
                     (repoMachine [(detailsLine, None)])))
  = [searchBanner " fix"].
Proof.
  destruct (main_searches "/repo" " fix" ["later"]
              (repoMachine [(detailsLine, None)])
              "/repo" (repoMachine [(detailsLine, None)])
              StatOk (repoMachine [(detailsLine, None)])
              StatOk (repoMachine [(detailsLine, None)]))
    as (_ & Hall & _);
    [by vm_compute | by vm_compute | discriminate | by vm_compute
    | discriminate |].
  apply (Hall 0%Z). by vm_compute.
Defined.
